(** * The ERCOT client of pyiso ([pyiso/ercot.py])

    A shallow embedding of [ERCOTClient]: the time normalizer [utcify], the
    report locator and materializer [_request_report], the wind / non-wind
    reconciliation [get_generation] and the load series builder [get_load],
    followed by the properties the specification states about them.

    Conventions of the embedding:
    - a Python [float] is an IEEE-754 binary64 value ([spec_float] at
      precision 53, [emax] 1024), with the standard library's correctly
      rounded operations;
    - a [datetime] is the count of microseconds from 1970-01-01T00:00:00 on
      its own clock: the wall clock for a naive value, UTC for an aware one;
    - text is ASCII, a [string] of bytes;
    - a method that may raise returns a [result]; a method that also talks to
      the network or to the logger runs in the monad [M], which threads the
      list of events performed so far. *)

From Stdlib Require Import ZArith List String Ascii Bool Lia.
From Stdlib Require Import SpecFloat DecimalString.
Import ListNotations.

Local Open Scope list_scope.
Local Open Scope string_scope.
Local Open Scope Z_scope.

(** ** Python builtins used by the client *)

Module Py.

(** *** Floats *)

Definition float := spec_float.

Definition prec : Z := 53.
Definition emax : Z := 1024.

Definition fsub : float -> float -> float := SFsub prec emax.


Definition is_nan (x : float) : bool :=
  match x with S754_nan => true | _ => false end.

(** [float(n)] for an integer [n]. *)
Definition float_of_Z (n : Z) : float := binary_normalize prec emax n 0 false.

(** The binary64 value nearest to [m * 10 ^ e], ties to even, for [m > 0]. *)
Definition float_of_decimal (neg : bool) (m : positive) (e : Z) : float :=
  match e with
  | Zneg n =>
      let den := Z.pow 10 (Zpos n) in
      let s := Z.max 0 (Zdigits2 den - Zdigits2 (Zpos m) + 64) in
      let '(q, r) := Z.div_eucl (Z.shiftl (Zpos m) s) den in
      binary_round_aux prec emax neg q (- s) (new_location den r)
  | _ => binary_normalize prec emax
           (cond_Zopp neg (Zpos m * Z.pow 10 e)) 0 false
  end.

(** *** Characters and strings *)

Definition code (c : ascii) : Z := Z.of_nat (nat_of_ascii c).

(** [c.isspace()] on ASCII. *)
Definition is_space (c : ascii) : bool :=
  ((9 <=? code c) && (code c <=? 13)) || ((28 <=? code c) && (code c <=? 32)).

Definition is_digit (c : ascii) : bool :=
  (48 <=? code c) && (code c <=? 57).

Definition digit_val (c : ascii) : Z := code c - 48.

Definition lower (c : ascii) : ascii :=
  if (65 <=? code c) && (code c <=? 90)
  then ascii_of_nat (nat_of_ascii c + 32) else c.

Fixpoint lower_str (s : string) : string :=
  match s with
  | EmptyString => EmptyString
  | String c r => String (lower c) (lower_str r)
  end.

Fixpoint lstrip (s : string) : string :=
  match s with
  | String c r => if is_space c then lstrip r else s
  | EmptyString => EmptyString
  end.

Fixpoint rstrip (s : string) : string :=
  match s with
  | EmptyString => EmptyString
  | String c r =>
      match rstrip r with
      | EmptyString => if is_space c then EmptyString else String c EmptyString
      | r' => String c r'
      end
  end.

(** [s.strip()] *)
Definition strip (s : string) : string := rstrip (lstrip s).

Fixpoint mem_char (c : ascii) (chars : string) : bool :=
  match chars with
  | EmptyString => false
  | String d r => Ascii.eqb c d || mem_char c r
  end.

Fixpoint lstrip_chars (chars s : string) : string :=
  match s with
  | String c r => if mem_char c chars then lstrip_chars chars r else s
  | EmptyString => EmptyString
  end.

Fixpoint rstrip_chars (chars s : string) : string :=
  match s with
  | EmptyString => EmptyString
  | String c r =>
      match rstrip_chars chars r with
      | EmptyString =>
          if mem_char c chars then EmptyString else String c EmptyString
      | r' => String c r'
      end
  end.

(** [s.strip(chars)] *)
Definition strip_chars (chars s : string) : string :=
  rstrip_chars chars (lstrip_chars chars s).

(** [sub in s] *)
Fixpoint contains (sub s : string) : bool :=
  prefix sub s ||
  match s with
  | EmptyString => false
  | String _ r => contains sub r
  end.

(** [s.split(sep)[0]] for a one-character separator: the text before the
    first separator, the whole text when there is none. *)
Fixpoint split_head (sep : ascii) (s : string) : string :=
  match s with
  | EmptyString => EmptyString
  | String c r =>
      if Ascii.eqb c sep then EmptyString else String c (split_head sep r)
  end.

Definition starts_with_space (s : string) : bool :=
  match s with
  | String c _ => is_space c
  | EmptyString => false
  end.

Fixpoint ends_with_space (s : string) : bool :=
  match s with
  | EmptyString => false
  | String c EmptyString => is_space c
  | String _ r => ends_with_space r
  end.

(** *** Numeric literals *)

(** A run of decimal digits read from the left: its value, how many digits
    it has, and what follows it. *)
Fixpoint digits (s : string) (acc : Z) (n : Z) : Z * Z * string :=
  match s with
  | String c r =>
      if is_digit c then digits r (10 * acc + digit_val c) (n + 1)
      else (acc, n, s)
  | EmptyString => (acc, n, s)
  end.

(** An optional sign: whether it is a minus, and what follows. *)
Definition sign (s : string) : bool * string :=
  match s with
  | String "-"%char r => (true, r)
  | String "+"%char r => (false, r)
  | _ => (false, s)
  end.

(** [int(s)] in base ten: [None] stands for [ValueError]. *)
Definition int_of_string (s : string) : option Z :=
  let '(neg, body) := sign (strip s) in
  match digits body 0 0 with
  | (v, n, EmptyString) =>
      if 0 <? n then Some (if neg then - v else v) else None
  | _ => None
  end.

(** The exponent part of a float literal, when there is one. *)
Definition exponent (s : string) : option Z :=
  match s with
  | EmptyString => Some 0
  | String c r =>
      if Ascii.eqb (lower c) "e"%char then
        let '(neg, body) := sign r in
        match digits body 0 0 with
        | (v, n, EmptyString) =>
            if 0 <? n then Some (if neg then - v else v) else None
        | _ => None
        end
      else None
  end.

(** [float(s)]: [None] stands for [ValueError]. Decimal literals with an
    optional fraction and exponent, and the special values. *)
Definition float_of_string (s : string) : option float :=
  let '(neg, body) := sign (strip s) in
  let special := lower_str body in
  if String.eqb special "inf" || String.eqb special "infinity"
  then Some (S754_infinity neg)
  else if String.eqb special "nan" then Some S754_nan
  else
    let '(ip, ni, rest) := digits body 0 0 in
    let '(m, nf, rest') :=
      match rest with
      | String "."%char r => digits r ip 0
      | _ => (ip, 0, rest)
      end in
    if 0 <? ni + nf then
      match exponent rest' with
      | Some e =>
          match m with
          | Zpos p => Some (float_of_decimal neg p (e - nf))
          | _ => Some (S754_zero neg)
          end
      | None => None
      end
    else None.

End Py.

(** ** Date-times *)

Module Datetime.

(** A naive date-time: microseconds on the wall clock. *)
Definition naive := Z.

(** An aware date-time in UTC: microseconds since the epoch. *)
Definition instant := Z.

Definition second : Z := 1000000.
Definition minute : Z := 60 * second.
Definition hour : Z := 60 * minute.
Definition day : Z := 24 * hour.

(** [timedelta(hours=n)] *)
Definition timedelta_hours (n : Z) : Z := n * hour.

(** [ts.replace(minute=0, second=0, microsecond=0)] on a UTC value. *)
Definition replace_minute_second_microsecond_0 (ts : instant) : instant :=
  ts - ts mod hour.

(** Days from 1970-01-01 to the civil date [y]-[m]-[d] (proleptic
    Gregorian calendar). *)
Definition days_from_civil (y m d : Z) : Z :=
  let y' := if m <=? 2 then y - 1 else y in
  let era := y' / 400 in
  let yoe := y' - era * 400 in
  let doy := (153 * ((m + 9) mod 12) + 2) / 5 + d - 1 in
  let doe := yoe * 365 + yoe / 4 - yoe / 100 + doy in
  era * 146097 + doe - 719468.

(** The civil date (year, month, day) of a day number. *)
Definition civil_from_days (z : Z) : Z * Z * Z :=
  let z' := z + 719468 in
  let era := z' / 146097 in
  let doe := z' - era * 146097 in
  let yoe := (doe - doe / 1460 + doe / 36524 - doe / 146096) / 365 in
  let doy := doe - (365 * yoe + yoe / 4 - yoe / 100) in
  let mp := (5 * doy + 2) / 153 in
  let d := doy - (153 * mp + 2) / 5 + 1 in
  let m := if mp <? 10 then mp + 3 else mp - 9 in
  (yoe + era * 400 + (if m <=? 2 then 1 else 0), m, d).

(** Day of the week of a day number: 0 is Sunday. *)
Definition weekday (z : Z) : Z := (z + 4) mod 7.

(** [datetime(y, mo, d, h, mi, s)] *)
Definition datetime (y mo d h mi s : Z) : Z :=
  days_from_civil y mo d * day + h * hour + mi * minute + s * second.

Definition year_of (t : Z) : Z :=
  let '(y, _, _) := civil_from_days (t / day) in y.

(** The first Sunday on or after day number [z]. *)
Definition sunday_from (z : Z) : Z := z + (7 - weekday z) mod 7.

(** Decimal text of a natural number, padded with zeros to [width]. *)
Fixpoint pad_digits (width : nat) (n : Z) (acc : string) : string :=
  match width with
  | O => acc
  | S w =>
      pad_digits w (n / 10)
        (String (ascii_of_nat (Z.to_nat (48 + n mod 10))) acc)
  end.

(** [str(ts)] for an aware UTC value. *)
Definition str (ts : instant) : string :=
  let '(y, mo, d) := civil_from_days (ts / day) in
  let r := ts mod day in
  let us := r mod second in
  pad_digits 4 y "" ++ "-" ++ pad_digits 2 mo "" ++ "-" ++ pad_digits 2 d ""
  ++ " " ++ pad_digits 2 (r / hour) ""
  ++ ":" ++ pad_digits 2 (r mod hour / minute) ""
  ++ ":" ++ pad_digits 2 (r mod minute / second) ""
  ++ (if us =? 0 then "" else "." ++ pad_digits 6 us "")
  ++ "+00:00".

End Datetime.

(** ** Errors and effects *)

Inductive exn : Type :=
| ValueError (msg : string)
| TypeError
| KeyError (key : string)
| IndexError
| AttributeError
| UnicodeDecodeError
| AmbiguousTimeError.

Inductive result (A : Type) : Type :=
| Ok (a : A)
| Raise (e : exn).
Arguments Ok {A} a.
Arguments Raise {A} e.

(** What a call does to the outside world: a request through the transport,
    or a line written through [LOGGER.error]. *)
Inductive event : Type :=
| Request (url : string) (params : list (string * string))
| LogError (msg : string).

Definition trace := list event.

Definition M (A : Type) : Type := trace -> result A * trace.

Definition ret {A} (a : A) : M A := fun tr => (Ok a, tr).

Definition raise {A} (e : exn) : M A := fun tr => (Raise e, tr).

Definition bind {A B} (c : M A) (k : A -> M B) : M B :=
  fun tr =>
    match c tr with
    | (Ok a, tr') => k a tr'
    | (Raise e, tr') => (Raise e, tr')
    end.

Definition lift {A} (r : result A) : M A := fun tr => (r, tr).

Definition emit (e : event) : M unit := fun tr => (Ok tt, (tr ++ [e])%list).

(** [try: c except ValueError: h] *)
Definition try_except_ValueError {A} (c : M A) (h : M A) : M A :=
  fun tr =>
    match c tr with
    | (Raise (ValueError _), tr') => h tr'
    | r => r
    end.

Declare Scope py_scope.
Delimit Scope py_scope with py.
Notation "x <- c ;; k" := (bind c (fun x => k))
  (at level 61, c at next level, right associativity) : py_scope.
Notation "c ;; k" := (bind c (fun _ => k))
  (at level 61, right associativity) : py_scope.
Local Open Scope py_scope.

(** ** Tables *)

(** A cell of a parsed report. [VNone] and a NaN float are what the tabular
    parser leaves where a field is missing. *)
Inductive value : Type :=
| VNone
| VInt (n : Z)
| VFloat (x : Py.float)
| VStr (s : string)
| VTime (t : Datetime.naive).

(** [pd.isnull(v)] *)
Definition isnull (v : value) : bool :=
  match v with
  | VNone => true
  | VFloat x => Py.is_nan x
  | _ => false
  end.

(** [float(v)] *)
Definition float_of (v : value) : result Py.float :=
  match v with
  | VFloat x => Ok x
  | VInt n => Ok (Py.float_of_Z n)
  | VStr s =>
      match Py.float_of_string s with
      | Some x => Ok x
      | None => Raise (ValueError ("could not convert string to float: " ++ s))
      end
  | VNone | VTime _ => Raise TypeError
  end.

(** [v.split(':')[0]] and the like need text. *)
Definition as_str (v : value) : result string :=
  match v with
  | VStr s => Ok s
  | _ => Raise AttributeError
  end.

(** Arithmetic with a [timedelta] and localization need a date-time. *)
Definition as_datetime (v : value) : result Datetime.naive :=
  match v with
  | VTime t => Ok t
  | _ => Raise TypeError
  end.

(** [pd.DataFrame]: column labels and rows of cells in file order. *)
Record DataFrame : Type := {
  columns : list string;
  rows : list (list value)
}.

(** [pd.DataFrame()] *)
Definition empty_DataFrame : DataFrame := {| columns := []; rows := [] |}.

(** A row handed out by [iloc] or [iterrows]: cells under their labels. *)
Definition Row := list (string * value).

Fixpoint getitem (dp : Row) (key : string) : result value :=
  match dp with
  | [] => Raise (KeyError key)
  | (k, v) :: r => if String.eqb k key then Ok v else getitem r key
  end.

Definition iterrows (df : DataFrame) : list Row :=
  map (fun cells => combine (columns df) cells) (rows df).

(** [df.iloc[0]] *)
Definition iloc_0 (df : DataFrame) : result Row :=
  match iterrows df with
  | dp :: _ => Ok dp
  | [] => Raise IndexError
  end.

(** [df.dropna(axis=0)] *)
Definition dropna (df : DataFrame) : DataFrame :=
  {| columns := columns df;
     rows := filter (fun cells => negb (existsb isnull cells)) (rows df) |}.

(** [df.columns = [x.strip() for x in df.columns]] *)
Definition strip_columns (df : DataFrame) : DataFrame :=
  {| columns := map Py.strip (columns df); rows := rows df |}.

(** [v != s] for a text [s]: a cell that is not text differs from any text. *)
Definition ne_str (v : value) (s : string) : bool :=
  match v with
  | VStr s' => negb (String.eqb s' s)
  | _ => true
  end.

(** [d[key]] on a dict with text keys. *)
Fixpoint dict_get (d : list (string * string)) (key : string) : result string :=
  match d with
  | [] => Raise (KeyError key)
  | (k, v) :: r => if String.eqb k key then Ok v else dict_get r key
  end.

Definition bindr {A B} (c : result A) (k : A -> result B) : result B :=
  match c with
  | Ok a => k a
  | Raise e => Raise e
  end.

Notation "'let?' x ':=' c 'in' k" := (bindr c (fun x => k))
  (at level 10, x name, c at level 100, k at level 200) : py_scope.

Fixpoint mapR {A B} (f : A -> result B) (l : list A) : result (list B) :=
  match l with
  | [] => Ok []
  | a :: r => let? b := f a in let? bs := mapR f r in Ok (b :: bs)
  end.

(** ** The base client *)

Module Base.
Import Datetime.

(** Modelled from the spec: the operator's civil time zone, which the
    missing [pyiso.base] takes from the time-zone database under [TZ_NAME].
    A zone has a standard and a daylight-saving offset from UTC and says at
    which instants daylight-saving time is in force. *)
Record zone : Type := {
  std_offset : Z;
  dst_offset : Z;
  dst_in_force : instant -> bool
}.

(** Modelled from the spec: the offset from UTC in force at an instant. *)
Definition utcoffset (tz : zone) (u : instant) : Z :=
  if dst_in_force tz u then dst_offset tz else std_offset tz.

(** Modelled from the spec: the local civil time of an instant, for
    "re-expressing in local civil time". *)
Definition to_local (tz : zone) (u : instant) : naive := u + utcoffset tz u.

(** Modelled from the spec: localization of [BaseClient.utcify], which is
    not among the sources ("localize the (possibly DST-ambiguous) naive
    timestamp to the operator's fixed civil time zone using the [is_dst]
    disambiguation, then convert to absolute time"). A wall-clock value read
    under one offset only is read so; one that can be read under both (the
    repeated hour) or under neither (the skipped hour) is read as the flag
    says. *)
Definition chosen_offset (tz : zone) (local_ts : naive) (is_dst : bool) : Z :=
  match dst_in_force tz (local_ts - dst_offset tz),
        negb (dst_in_force tz (local_ts - std_offset tz)) with
  | true, false => dst_offset tz
  | false, true => std_offset tz
  | _, _ => if is_dst then dst_offset tz else std_offset tz
  end.

(** Modelled from the spec: "then convert to absolute time". *)
Definition localize (tz : zone) (local_ts : naive) (is_dst : bool) : instant :=
  local_ts - chosen_offset tz local_ts is_dst.

(** Modelled from the spec: [BaseClient.utcify], missing from the sources.
    Without a flag the value is taken as standard local time where the
    clock alone does not decide. The specification's normalizer takes a
    naive date-time value; a cell of another kind is a [TypeError] here. *)
Definition utcify (tz : zone) (local_ts : value) (is_dst : option bool)
  : result instant :=
  match local_ts with
  | VTime t =>
      Ok (localize tz t (match is_dst with Some d => d | None => false end))
  | _ => Raise TypeError
  end.

(** Modelled from the spec: the wall-clock value [local_ts] exists with the
    flag [is_dst]: some instant, in daylight-saving time exactly when the
    flag is set, has [local_ts] as its local civil time. *)
Definition valid_local (tz : zone) (local_ts : naive) (is_dst : bool) : bool :=
  Bool.eqb
    (dst_in_force tz
       (local_ts - (if is_dst then dst_offset tz else std_offset tz)))
    is_dst.

(** Modelled from the spec: "re-expressing in local civil time and
    convention" an instant that begins an hour: the hour is labelled by the
    local civil time of its beginning, or of its end under the hour-ending
    convention. *)
Definition express (tz : zone) (hour_ending : bool) (u : instant) : naive :=
  to_local tz (if hour_ending then u + timedelta_hours 1 else u).

(** Modelled from the spec: the zone named by [TZ_NAME = 'US/Central']
    under the United States rule in force since 2007: daylight-saving time
    from the second Sunday of March, 02:00 standard time (08:00 UTC), to
    the first Sunday of November, 02:00 daylight time (07:00 UTC). *)
Definition US_Central : zone := {|
  std_offset := - (6 * hour);
  dst_offset := - (5 * hour);
  dst_in_force := fun u =>
    let y := year_of u in
    let start := (sunday_from (days_from_civil y 3 1) + 7) * day + 8 * hour in
    let stop := sunday_from (days_from_civil y 11 1) * day + 7 * hour in
    (start <=? u) && (u <? stop)
|}.

(** Modelled from the spec: the choices of [FREQUENCY_CHOICES] and
    [MARKET_CHOICES] the client names. *)
Inductive frequency : Type := FREQUENCY_hourly | FREQUENCY_fivemin.
Inductive market : Type := MARKET_hourly | MARKET_fivemin | MARKET_dam.

(** Modelled from the spec: the transport's answer, "[{content: bytes,
    text: string} | falsy]"; [None] is the falsy answer. *)
Record Response : Type := {
  content : string;
  text : string
}.

(** Modelled from the spec: the selections of the options resolver. *)
Record Options : Type := {
  latest : bool;
  forecast : bool;
  opt_market : option market;
  opt_freq : option frequency
}.

End Base.

Import Datetime.

Definition Kwargs := list (string * value).

Record GenerationDataPoint : Type := {
  timestamp : instant;
  freq : Base.frequency;
  market : Base.market;
  gen_MW : value;
  ba_name : string;
  fuel_name : option string
}.

Record LoadDataPoint : Type := {
  load_timestamp : instant;
  load_ba_name : string;
  load_market : Base.market;
  load_freq : Base.frequency;
  load_MW : value
}.

(** The methods [ERCOTClient] inherits from [pyiso.base.BaseClient], which is
    not among the sources: the time normalizer of the base class, reached
    through [super(ERCOTClient, self).utcify], and the rest. *)
Class BaseUtcify : Type := {
  super_utcify : value -> option bool -> result instant
}.

Class BaseClient : Type := {
  (** what the service answers; the call itself is the event [Request] *)
  request : string -> list (string * string) -> option Base.Response;
  unzip : string -> option (list string);
  handle_options : string -> bool -> Kwargs -> Base.Options;
  slice_times :
    Base.Options -> list (instant * Row) -> list (instant * Row);
  serialize_faster :
    list (instant * value) -> string * Base.market * Base.frequency ->
    list LoadDataPoint
}.

(** A row of the report listing as the locator reads it: the text of its
    [labelOptional_ind] element when it has one, and the target of its
    link. *)
Record Tr : Type := {
  label : option string;
  href : string
}.

(** The parsed page as the client queries it. *)
Record Soup : Type := {
  (** [soup.find_all('tr')], in document order *)
  find_all_tr : list Tr;
  (** [str(soup)] *)
  soup_str : string;
  (** the text of the [labelValueClassBold] element beside the text
      'Actual System Demand' *)
  actual_system_demand : option string;
  (** [soup.find(text=re.compile('Last Updated'))] *)
  last_updated : option string
}.

(** The libraries the client calls: the HTML parser, the text codec and the
    tabular parser. *)
Class Libraries : Type := {
  BeautifulSoup : string -> Soup;
  decode_unicode_escape : string -> result string;
  read_csv : string -> result DataFrame;
  to_datetime : string -> result naive;
  (** [str(v)] for a cell that is neither text nor an integer *)
  str_other : value -> string
}.

(** ** The client: [class ERCOTClient(BaseClient)] *)

Module ERCOTClient.
Section Client.
Context {base_time : BaseUtcify} {base : BaseClient} {libs : Libraries}.

Definition NAME : string := "ERCOT".
Definition base_report_url : string := "http://mis.ercot.com".

Definition report_type_ids : list (string * string) :=
  [ ("wind_5min", "13071");
    ("wind_hrly", "13028");
    ("gen_hrly", "12358");
    ("load_7day", "12311") ].

Definition TZ_NAME : string := "US/Central".

(** [local_ts - timedelta(hours=1)] *)
Definition sub_hour (local_ts : value) : result value :=
  let? t := as_datetime local_ts in Ok (VTime (t - timedelta_hours 1)).

(** A keyword argument left out ([None]) takes its default. *)
Definition keyword {A} (given : option A) (default : A) : A :=
  match given with
  | Some a => a
  | None => default
  end.

(** [def utcify(self, local_ts, hour_ending=False, **kwargs)], where the
    keyword the callers pass on is [is_dst]. *)
Definition utcify (local_ts : value) (hour_ending : option bool)
    (is_dst : option bool) : result instant :=
  (* ERCOT is hour ending, want hour beginning *)
  let? hour_beginning_ts :=
    (if keyword hour_ending false then sub_hour local_ts else Ok local_ts) in
  super_utcify hour_beginning_ts is_dst.

(** [self.request(url, params=params)] *)
Definition do_request (url : string) (params : list (string * string))
  : M (option Base.Response) :=
  emit (Request url params) ;; ret (request url params).

(** The loop over [report_list_soup.find_all('tr')], left at the first
    row whose label contains 'csv'. *)
Fixpoint find_endpoint (trs : list Tr) : option string :=
  match trs with
  | [] => None
  | elt :: rest =>
      match label elt with
      | Some label_string =>
          if Py.contains "csv" label_string
          then Some (base_report_url ++ href elt)
          else find_endpoint rest
      | None => find_endpoint rest
      end
  end.

Definition no_report_message (report_type : string) (soup : Soup) : string :=
  "ERCOT: No report available for " ++ report_type ++ ", soup:"
  ++ String (ascii_of_nat 10) (soup_str soup).

(** [content[0]] *)
Definition first_member (content : option (list string)) : result string :=
  match content with
  | None => Raise TypeError
  | Some [] => Raise IndexError
  | Some (member :: _) => Ok member
  end.

(** The second half of [_request_report]: read the report from the zip
    behind [report_endpoint] and parse it. *)
Definition read_report (report_endpoint : string) : M DataFrame :=
  r <- do_request report_endpoint [] ;;
  match r with
  | Some resp =>
      let content := unzip (Base.content resp) in
      (* parse csv *)
      member <- lift (first_member content) ;;
      decoded <- lift (decode_unicode_escape member) ;;
      df <- lift (read_csv decoded) ;;
      let df := strip_columns df in
      let df := dropna df in
      ret df
  | None => ret empty_DataFrame
  end.

Definition _request_report (report_type : string) : M DataFrame :=
  (* request reports list *)
  report_type_id <- lift (dict_get report_type_ids report_type) ;;
  r <- do_request (base_report_url ++ "/misapp/GetReports.do")
         [("reportTypeId", report_type_id)] ;;
  report_list_contents <-
    lift (match r with
          | Some resp => Ok (Base.content resp)
          | None => Raise AttributeError
          end) ;;
  let report_list_soup := BeautifulSoup report_list_contents in
  (* find the endpoint to download *)
  let report_endpoint := find_endpoint (find_all_tr report_list_soup) in
  (* test endpoint found *)
  match report_endpoint with
  | Some endpoint =>
      if String.eqb endpoint ""
      then raise (ValueError (no_report_message report_type report_list_soup))
      else read_report endpoint
  | None =>
      raise (ValueError (no_report_message report_type report_list_soup))
  end.

Definition is_dst (val : value) (standard : string) : bool :=
  ne_str val standard.

(** The normalized timestamp of one row of the wind report. *)
Definition wind_timestamp (wind_dp : Row) : result instant :=
  let? hour_beginning := getitem wind_dp "HOUR_BEGINNING" in
  let? flag := getitem wind_dp "DSTFlag" in
  utcify hour_beginning (Some false) (Some (is_dst flag "N")).

Definition no_wind_message (raw_ts : instant) : string :=
  "No wind data available at " ++ Datetime.str raw_ts ++ " in ERCOT".

(** The loop over [wind_df.iterrows()]: the value of [wind_gen] when the
    loop is left. *)
Fixpoint scan_wind (raw_ts ts_hour_rounded_down : instant)
    (wind_rows : list Row) : M (option Py.float) :=
  match wind_rows with
  | [] => ret None
  | wind_dp :: rest =>
      wind_ts <- lift (wind_timestamp wind_dp) ;;
      if wind_ts =? ts_hour_rounded_down then
        try_except_ValueError
          (wind_gen <-
             lift (let? v := getitem wind_dp "ACTUAL_SYSTEM_WIDE" in
                   float_of v) ;;
           ret (Some wind_gen))
          ((* empty string *)
           emit (LogError (no_wind_message raw_ts)) ;; ret None)
      else scan_wind raw_ts ts_hour_rounded_down rest
  end.

Definition set_fuel_name (dp : GenerationDataPoint) (fuel : string)
  : GenerationDataPoint :=
  {| timestamp := timestamp dp; freq := freq dp; market := market dp;
     gen_MW := gen_MW dp; ba_name := ba_name dp; fuel_name := Some fuel |}.

Definition set_gen_MW (dp : GenerationDataPoint) (gen : Py.float)
  : GenerationDataPoint :=
  {| timestamp := timestamp dp; freq := freq dp; market := market dp;
     gen_MW := VFloat gen; ba_name := ba_name dp;
     fuel_name := fuel_name dp |}.

Definition get_generation (latest : bool) (kwargs : Kwargs)
  : M (list GenerationDataPoint) :=
  (* get nonwind gen data *)
  raw_gen_df <- _request_report "gen_hrly" ;;
  total_dp <- lift (iloc_0 raw_gen_df) ;;
  total_gen <- lift (let? v := getitem total_dp "SE_MW" in float_of v) ;;
  (* get timestamp on hour *)
  raw_ts <-
    lift (let? exe_time := getitem total_dp "SE_EXE_TIME" in
          let? flag := getitem total_dp "SE_EXE_TIME_DST" in
          utcify exe_time (Some true) (Some (is_dst flag "s"))) ;;
  let ts_hour_rounded_down := replace_minute_second_microsecond_0 raw_ts in
  (* process wind data *)
  wind_df <- _request_report "wind_hrly" ;;
  wind_gen <- scan_wind raw_ts ts_hour_rounded_down (iterrows wind_df) ;;
  (* set up storage *)
  let base_dp :=
    {| timestamp := ts_hour_rounded_down;
       freq := Base.FREQUENCY_hourly; market := Base.MARKET_hourly;
       gen_MW := VInt 0; ba_name := NAME; fuel_name := None |} in
  (* collect parsed data *)
  match wind_gen with
  | Some wind_gen =>
      let nonwind_gen := Py.fsub total_gen wind_gen in
      ret (map (fun '(gen_MW, fuel_name) =>
                  set_gen_MW (set_fuel_name base_dp fuel_name) gen_MW)
               [(wind_gen, "wind"); (nonwind_gen, "nonwind")])
  | None => ret []
  end.

Definition parse_rtm_load (options : Base.Options) (content : string)
  : M (list LoadDataPoint) :=
  (* make soup *)
  let soup := BeautifulSoup content in
  (* load is after 'Actual System Demand' text *)
  load_text <-
    lift (match actual_system_demand soup with
          | Some t => Ok t
          | None => Raise AttributeError
          end) ;;
  load_val <- lift (float_of (VStr load_text)) ;;
  (* timestamp text starts with 'Last Updated' *)
  timestamp_elt <-
    lift (match last_updated soup with
          | Some t => Ok t
          | None => Raise AttributeError
          end) ;;
  let timestamp_str := Py.strip_chars "Last Updated " timestamp_elt in
  timestamp <- lift (utcify (VStr timestamp_str) None None) ;;
  (* assemble dp *)
  ret [ {| load_timestamp := timestamp;
           load_ba_name := NAME;
           load_market :=
             match Base.opt_market options with
             | Some m => m | None => Base.MARKET_fivemin end;
           load_freq :=
             match Base.opt_freq options with
             | Some f => f | None => Base.FREQUENCY_fivemin end;
           load_MW := VFloat load_val |} ].

(** [int(dp['HourEnding'].split(':')[0]) - 1] *)
Definition hour_beginning (dp : Row) : result Z :=
  let? hour_ending := getitem dp "HourEnding" in
  let? hour_ending := as_str hour_ending in
  match Py.int_of_string (Py.split_head ":" hour_ending) with
  | Some n => Ok (n - 1)
  | None => Raise (ValueError "invalid literal for int() with base 10")
  end.

(** [df['HourBeginning'] = df.apply(lambda dp: ..., axis=1)] *)
Definition with_hour_beginning (df : list Row) : result (list Row) :=
  mapR (fun dp =>
          let? hb := hour_beginning dp in
          Ok (("HourBeginning", VInt hb) :: dp))
       df.

(** ['%s' % v] *)
Definition format_s (v : value) : string :=
  match v with
  | VStr s => s
  | VInt n => DecimalString.NilZero.string_of_int (Z.to_int n)
  | _ => str_other v
  end.

(** The index entry of one row of the forecast, which already carries its
    [HourBeginning]. *)
Definition forecast_timestamp (dp : Row) : result instant :=
  let? delivery_date := getitem dp "DeliveryDate" in
  let? hb := getitem dp "HourBeginning" in
  let? local_ts :=
    to_datetime (format_s delivery_date ++ " " ++ format_s hb ++ ":00") in
  let? flag := getitem dp "DSTFlag" in
  utcify (VTime local_ts) (Some false) (Some (is_dst flag "N")).

Definition get_load_forecast (options : Base.Options)
  : M (list LoadDataPoint) :=
  (* get 7 day forecast load *)
  df <- _request_report "load_7day" ;;
  (* convert column of hour ending (1:00-24:00) to hour beginning
     (0:00-23:00) *)
  df <- lift (with_hour_beginning (iterrows df)) ;;
  (* create datetime index of hour beginning *)
  index <- lift (mapR forecast_timestamp df) ;;
  (* slice times *)
  let sliced := slice_times options (combine index df) in
  (* pull out total load series *)
  series <- lift (mapR (fun '(ts, dp) =>
                          let? v := getitem dp "SystemTotal" in Ok (ts, v))
                       sliced) ;;
  (* slice and format *)
  let extras := (NAME, Base.MARKET_dam, Base.FREQUENCY_hourly) in
  ret (serialize_faster series extras).

Definition get_load (latest : bool) (kwargs : Kwargs)
  : M (list LoadDataPoint) :=
  (* set args *)
  let options := handle_options "load" latest kwargs in
  if Base.latest options then
    (* get latest load site *)
    response <-
      do_request
        "http://www.ercot.com/content/cdr/html/real_time_system_conditions.html"
        [] ;;
    text <- lift (match response with
                  | Some resp => Ok (Base.text resp)
                  | None => Raise AttributeError
                  end) ;;
    (* parse load from response *)
    parse_rtm_load options text
  else if Base.forecast options then
    get_load_forecast options
  else
    raise (ValueError "Load only available for latest or forecast in ERCOT").

End Client.
End ERCOTClient.

(** The base normalizer as the specification describes it, in a zone. *)
Definition spec_utcify (tz : Base.zone) : BaseUtcify :=
  {| super_utcify := Base.utcify tz |}.

(** ** A simulated operator site

    Concrete collaborators on which the client runs by computation: a site
    that serves a listing per report type and a table per download link. *)

Module Sim.

Record site : Type := {
  (** the rows of the listing served for a report type id *)
  listing : string -> option (list Tr);
  (** the table behind a download link; [None] is a falsy answer *)
  table : string -> option DataFrame
}.

Definition index_url : string :=
  ERCOTClient.base_report_url ++ "/misapp/GetReports.do".

Definition serve (s : site) (url : string) (params : list (string * string))
  : option Base.Response :=
  if String.eqb url index_url then
    match params with
    | [(_, id)] =>
        match listing s id with
        | Some _ => Some {| Base.content := id; Base.text := id |}
        | None => None
        end
    | _ => None
    end
  else
    match table s url with
    | Some _ => Some {| Base.content := url; Base.text := url |}
    | None => None
    end.

Definition has_key (key : string) (kwargs : Kwargs) : bool :=
  existsb (fun '(k, _) => String.eqb k key) kwargs.

Definition client (s : site) : BaseClient := {|
  request := serve s;
  unzip := fun content => Some [content];
  handle_options := fun _ latest kwargs =>
    {| Base.latest := latest;
       Base.forecast := has_key "forecast" kwargs;
       Base.opt_market := None;
       Base.opt_freq := None |};
  slice_times := fun _ series => series;
  serialize_faster := fun series '(name, market, freq) =>
    map (fun '(ts, v) =>
           {| load_timestamp := ts; load_ba_name := name;
              load_market := market; load_freq := freq; load_MW := v |})
        series
|}.

Definition libraries (s : site) : Libraries := {|
  BeautifulSoup := fun content =>
    {| find_all_tr := match listing s content with
                      | Some trs => trs
                      | None => []
                      end;
       soup_str := "<html>" ++ content ++ "</html>";
       actual_system_demand := None;
       last_updated := None |};
  decode_unicode_escape := fun member => Ok member;
  read_csv := fun decoded =>
    match table s decoded with
    | Some df => Ok df
    | None => Raise (ValueError "No columns to parse from file")
    end;
  to_datetime := fun _ => Raise (ValueError "Unknown string format");
  str_other := fun _ => ""
|}.

(** Listings: a header row without a label, an XML link and a CSV link. *)
Definition listing_of (name : string) : list Tr :=
  [ {| label := None; href := "" |};
    {| label := Some "xml"; href := "/misdownload/" ++ name ++ ".xml.zip" |};
    {| label := Some "data (csv)";
       href := "/misdownload/" ++ name ++ ".csv.zip" |} ].

Definition link_of (name : string) : string :=
  ERCOTClient.base_report_url ++ "/misdownload/" ++ name ++ ".csv.zip".

(** The hourly total-generation report: one snapshot row. *)
Definition gen_table (exe_time : naive) (flag : string) (se_mw : value)
  : DataFrame :=
  {| columns := ["SE_EXE_TIME"; "SE_EXE_TIME_DST"; "SE_MW"];
     rows := [[VTime exe_time; VStr flag; se_mw]] |}.

(** The hourly wind report: hour beginning, flag and actual wind. *)
Definition wind_table (entries : list (naive * string * value)) : DataFrame :=
  {| columns := ["HOUR_BEGINNING"; "DSTFlag"; "ACTUAL_SYSTEM_WIDE"];
     rows := map (fun '(t, flag, w) => [VTime t; VStr flag; w]) entries |}.

(** A site that publishes the two generation reports. *)
Definition ercot (gen wind : DataFrame) : site := {|
  listing := fun id =>
    if String.eqb id "12358" then Some (listing_of "gen")
    else if String.eqb id "13028" then Some (listing_of "wind")
    else None;
  table := fun url =>
    if String.eqb url (link_of "gen") then Some gen
    else if String.eqb url (link_of "wind") then Some wind
    else None
|}.


(** A site that lists its reports and has published none of them yet. *)
Definition unpublished : site := {|
  listing := listing (ercot empty_DataFrame empty_DataFrame);
  table := fun _ => None
|}.

(** A wind report as the tabular parser returns it: padded labels, and two
    rows with a missing field. *)
Definition raw_wind : DataFrame :=
  {| columns := [" HOUR_BEGINNING"; "DSTFlag "; "  ACTUAL_SYSTEM_WIDE  "];
     rows :=
       [ [VTime (datetime 2014 7 14 10 0 0); VStr "Y"; VFloat S754_nan];
         [VTime (datetime 2014 7 14 11 0 0); VStr "Y";
          VFloat (Py.float_of_Z 250)];
         [VTime (datetime 2014 7 14 12 0 0); VNone;
          VFloat (Py.float_of_Z 200)] ] |}.

(** The client at the site, in the operator's zone. *)
Definition get_generation (gen wind : DataFrame)
  : result (list GenerationDataPoint) * trace :=
  @ERCOTClient.get_generation (spec_utcify Base.US_Central)
    (client (ercot gen wind)) (libraries (ercot gen wind)) false [] [].

Definition _request_report (s : site) (report_type : string)
  : result DataFrame * trace :=
  @ERCOTClient._request_report (client s) (libraries s) report_type [].

(** The cell the tabular parser makes of a numeric field. *)
Definition number (field : string) : value :=
  match Py.float_of_string field with
  | Some x => VFloat x
  | None => VStr field
  end.

Definition gen_row (exe_time : naive) (flag : string) (se_mw : value) : Row :=
  [ ("SE_EXE_TIME", VTime exe_time); ("SE_EXE_TIME_DST", VStr flag);
    ("SE_MW", se_mw) ].


(** The events of a run that fetches both generation reports. *)
Definition gen_requests : trace :=
  [ Request "http://mis.ercot.com/misapp/GetReports.do"
      [("reportTypeId", "12358")];
    Request "http://mis.ercot.com/misdownload/gen.csv.zip" [] ].

Definition wind_requests : trace :=
  [ Request "http://mis.ercot.com/misapp/GetReports.do"
      [("reportTypeId", "13028")];
    Request "http://mis.ercot.com/misdownload/wind.csv.zip" [] ].

(** A snapshot taken at 12:55:03 daylight time on 14 July 2014: the hour
    ending then began at 16:00 UTC. *)
Definition snapshot_time : naive := datetime 2014 7 14 12 55 3.

Definition wind_three_hours : DataFrame :=
  wind_table [ (datetime 2014 7 14 10 0 0, "Y", number "300.0");
               (datetime 2014 7 14 11 0 0, "Y", number "250.0");
               (datetime 2014 7 14 12 0 0, "Y", number "200.0") ].



(** A site that answers nothing at all. *)
Definition offline : site := {|
  listing := fun _ => None;
  table := fun _ => None
|}.


(** A total-generation report whose timestamp column is text, as the
    tabular parser leaves a column it was not told to read as dates. *)
Definition gen_table_text (exe_time flag : string) (se_mw : value)
  : DataFrame :=
  {| columns := ["SE_EXE_TIME"; "SE_EXE_TIME_DST"; "SE_MW"];
     rows := [[VStr exe_time; VStr flag; se_mw]] |}.



(** The client at a site, in the operator's zone. *)
Definition run_generation (s : site)
  : result (list GenerationDataPoint) * trace :=
  @ERCOTClient.get_generation (spec_utcify Base.US_Central)
    (client s) (libraries s) false [] [].

(** Dates the simulated date parsers know. *)
Fixpoint lookup_date (dates : list (string * naive)) (s : string)
  : result naive :=
  match dates with
  | [] => Raise (ValueError "Unknown string format")
  | (k, t) :: r => if String.eqb k s then Ok t else lookup_date r s
  end.

(** A base normalizer that reads the texts it knows as dates and localizes
    in the operator's zone. *)
Definition text_utcify (dates : list (string * naive)) : BaseUtcify := {|
  super_utcify := fun v is_dst =>
    match v with
    | VStr s =>
        let? t := lookup_date dates s in
        Base.utcify Base.US_Central (VTime t) is_dst
    | _ => Base.utcify Base.US_Central v is_dst
    end
|}.

Definition rtm_url : string :=
  "http://www.ercot.com/content/cdr/html/real_time_system_conditions.html".

(** A transport that serves the real-time conditions page, or nothing. *)
Definition rtm_client (page : option string) : BaseClient := {|
  request := fun url _ =>
    if String.eqb url rtm_url
    then match page with
         | Some p => Some {| Base.content := p; Base.text := p |}
         | None => None
         end
    else None;
  unzip := unzip (BaseClient := client offline);
  handle_options := handle_options (BaseClient := client offline);
  slice_times := slice_times (BaseClient := client offline);
  serialize_faster := serialize_faster (BaseClient := client offline)
|}.

(** An HTML parser that finds the given demand value and update line. *)
Definition rtm_libraries (demand updated : option string) : Libraries := {|
  BeautifulSoup := fun content =>
    {| find_all_tr := [];
       soup_str := content;
       actual_system_demand := demand;
       last_updated := updated |};
  decode_unicode_escape := fun member => Ok member;
  read_csv := fun _ => Raise (ValueError "No columns to parse from file");
  to_datetime := fun _ => Raise (ValueError "Unknown string format");
  str_other := fun _ => ""
|}.

(** A site that publishes the seven-day load forecast. *)
Definition load_site (load : DataFrame) : site := {|
  listing := fun id =>
    if String.eqb id "12311" then Some (listing_of "load") else None;
  table := fun url =>
    if String.eqb url (link_of "load") then Some load else None
|}.

(** The libraries at a site, with a date parser that knows [dates]. *)
Definition dated_libraries (s : site) (dates : list (string * naive))
  : Libraries := {|
  BeautifulSoup := BeautifulSoup (Libraries := libraries s);
  decode_unicode_escape := decode_unicode_escape (Libraries := libraries s);
  read_csv := read_csv (Libraries := libraries s);
  to_datetime := lookup_date dates;
  str_other := str_other (Libraries := libraries s)
|}.

Definition load_row (date hour_ending : string) (total : value)
    (flag : string) : list value :=
  [VStr date; VStr hour_ending; total; VStr flag].

Definition load_table (entries : list (list value)) : DataFrame :=
  {| columns := ["DeliveryDate"; "HourEnding"; "SystemTotal"; "DSTFlag"];
     rows := entries |}.

End Sim.

(** ** Vocabulary of the properties *)








(** Column labels carry no whitespace at either end. *)
Definition trimmed (s : string) : bool :=
  negb (Py.starts_with_space s) && negb (Py.ends_with_space s).

(** The published label of the hour ending at [h] o'clock. *)
Definition hour_ending_label (h : Z) : string :=
  NilZero.string_of_int (Z.to_int h) ++ ":00".


(** The first, and the last, character of a text is one of [chars]. *)
Definition first_in (chars s : string) : bool :=
  match s with
  | String c _ => Py.mem_char c chars
  | EmptyString => false
  end.

Fixpoint last_in (chars s : string) : bool :=
  match s with
  | EmptyString => false
  | String c EmptyString => Py.mem_char c chars
  | String _ r => last_in chars r
  end.

(** The cells of a row are all present. *)
Definition no_null (cells : list value) : bool :=
  forallb (fun v => negb (isnull v)) cells.

(** * Properties *)

(** ** The monad *)

Lemma bind_Ok {A B} (c : M A) (k : A -> M B) tr a tr' :
  c tr = (Ok a, tr') -> bind c k tr = k a tr'.
Proof. intros E. unfold bind. now rewrite E. Qed.

Lemma bind_lift_Ok {A B} (r : result A) (k : A -> M B) tr a :
  r = Ok a -> bind (lift r) k tr = k a tr.
Proof. intros ->. reflexivity. Qed.

(** ** Text *)

Lemma lstrip_no_leading_space s : Py.starts_with_space (Py.lstrip s) = false.
Proof.
  induction s as [|c r IH]; simpl; [reflexivity|].
  destruct (Py.is_space c) eqn:E; [exact IH|]. simpl. exact E.
Qed.

Lemma rstrip_leading_space s :
  Py.starts_with_space s = false -> Py.starts_with_space (Py.rstrip s) = false.
Proof.
  destruct s as [|c r]; simpl; [reflexivity|]. intros E.
  destruct (Py.rstrip r); [rewrite E|]; simpl; auto.
Qed.

Lemma rstrip_no_trailing_space s : Py.ends_with_space (Py.rstrip s) = false.
Proof.
  induction s as [|c r IH]; simpl; [reflexivity|].
  destruct (Py.rstrip r) as [|c' r'] eqn:E.
  - destruct (Py.is_space c) eqn:Ec; simpl; auto.
  - exact IH.
Qed.

Lemma strip_trimmed s : trimmed (Py.strip s) = true.
Proof.
  unfold trimmed, Py.strip.
  rewrite rstrip_no_trailing_space.
  rewrite rstrip_leading_space by apply lstrip_no_leading_space.
  reflexivity.
Qed.

(** ** Time normalizer *)

Section TimeNormalizer.
Context {base_time : BaseUtcify}.

(** C6: with [hour_ending] true, [utcify] hands the base normalizer the
    naive timestamp less exactly one hour; with [hour_ending] false it hands
    the timestamp over unshifted; and the disambiguation flag is
    [dst_flag != standard_marker], which is what the wind rows pass on. *)
Theorem utcify_shift_and_flag :
  forall (local_ts : naive) (v : value) (is_dst : option bool)
         (flag wind : value) (standard : string),
    ERCOTClient.utcify (VTime local_ts) (Some true) is_dst
      = super_utcify (VTime (local_ts - 3600 * 1000000)) is_dst
    /\ ERCOTClient.utcify v (Some false) is_dst = super_utcify v is_dst
    /\ ERCOTClient.utcify v None is_dst = super_utcify v is_dst
    /\ (ERCOTClient.is_dst flag standard = true \/ flag = VStr standard)
    /\ ERCOTClient.is_dst (VStr standard) standard = false
    /\ ERCOTClient.wind_timestamp
         [("HOUR_BEGINNING", VTime local_ts); ("DSTFlag", flag);
          ("ACTUAL_SYSTEM_WIDE", wind)]
       = super_utcify (VTime local_ts)
           (Some (ERCOTClient.is_dst flag "N")).
Proof.
  intros. split; [reflexivity|]. split; [reflexivity|].
  split; [reflexivity|]. split; [|split; [|reflexivity]].
  - unfold ERCOTClient.is_dst, ne_str.
    destruct flag as [| | |s|]; auto.
    destruct (String.eqb_spec s standard) as [->|]; auto.
  - unfold ERCOTClient.is_dst, ne_str. now rewrite String.eqb_refl.
Qed.

End TimeNormalizer.

(** ** Time normalizer over the base normalizer of the specification *)

Section Localization.
Import Base.
Variable tz : zone.

Ltac norm_at x :=
  repeat match goal with
  | |- context [dst_in_force ?z ?e] =>
      lazymatch e with
      | x => fail
      | _ => replace e with x by (unfold timedelta_hours; lia)
      end
  end.

Lemma utcify_spec_Ok (ts : naive) (he d : bool) :
  @ERCOTClient.utcify (spec_utcify tz) (VTime ts) (Some he) (Some d)
  = Ok (localize tz (if he then ts - timedelta_hours 1 else ts) d).
Proof. destruct he; reflexivity. Qed.

Lemma round_trip_in_zone (ts : naive) (he d : bool) :
  dst_offset tz = std_offset tz + hour ->
  valid_local tz ts d = true ->
  express tz he
    (localize tz (if he then ts - timedelta_hours 1 else ts) d) = ts.
Proof.
  intros Hoff Hvalid.
  unfold express, to_local, utcoffset, localize, chosen_offset,
    valid_local in *.
  rewrite Hoff in *.
  set (s := std_offset tz) in *.
  set (x1 := ts - s). set (x0 := ts - s - hour).
  set (xm := ts - s - 2 * hour).
  destruct (dst_in_force tz x1) eqn:E1, (dst_in_force tz x0) eqn:E0,
    (dst_in_force tz xm) eqn:Em.
  all: destruct d, he; cbn [negb] in *.
  all: replace (ts - (s + hour)) with x0 in * by (unfold x0; lia).
  all: replace (ts - s) with x1 in * by reflexivity.
  all: try replace (ts - timedelta_hours 1 - (s + hour)) with xm in *
         by (unfold xm, timedelta_hours; lia).
  all: try replace (ts - timedelta_hours 1 - s) with x0 in *
         by (unfold x0, timedelta_hours; lia).
  all: rewrite ?E1, ?E0, ?Em in *; cbn in *; try discriminate.
  all: norm_at x1; norm_at x0; norm_at xm; rewrite ?E1, ?E0, ?Em.
  all: unfold x1, x0, xm, timedelta_hours in *; lia.
Qed.

(** For a wall-clock value that exists with its flag, the hour-ending
    reading is one hour before the hour-beginning reading, unless the value
    is a standard-time one and daylight-saving time was in force both one
    and two hours before it: then it is two hours before. *)
Lemma hour_ending_gap_when_valid (ts : naive) (d : bool) :
  dst_offset tz = std_offset tz + hour ->
  valid_local tz ts d = true ->
  let hb := localize tz ts d in
  localize tz (ts - timedelta_hours 1) d
  = if negb d && dst_in_force tz (hb - hour)
       && dst_in_force tz (hb - 2 * hour)
    then hb - 2 * hour else hb - hour.
Proof.
  intros Hoff Hvalid.
  unfold localize, chosen_offset, valid_local in *.
  rewrite Hoff in *.
  set (s := std_offset tz) in *.
  set (x1 := ts - s). set (x0 := ts - s - hour).
  set (xm := ts - s - 2 * hour).
  destruct (dst_in_force tz x1) eqn:E1, (dst_in_force tz x0) eqn:E0,
    (dst_in_force tz xm) eqn:Em.
  all: destruct d; cbn [negb] in *.
  all: replace (ts - (s + hour)) with x0 in * by (unfold x0; lia).
  all: replace (ts - s) with x1 in * by reflexivity.
  all: replace (ts - timedelta_hours 1 - (s + hour)) with xm in *
         by (unfold xm, timedelta_hours; lia).
  all: replace (ts - timedelta_hours 1 - s) with x0 in *
         by (unfold x0, timedelta_hours; lia).
  all: rewrite ?E1, ?E0, ?Em in *; cbn in *; try discriminate.
  all: norm_at x1; norm_at x0; norm_at xm; rewrite ?E1, ?E0, ?Em.
  all: cbn; unfold x1, x0, xm, timedelta_hours in *; lia.
Qed.

(** C4, as amended: hour-ending normalization of [ts] is hour-beginning
    normalization of the wall-clock value [ts] less one hour, and it is one
    hour before the hour-beginning normalization of [ts] exactly when the
    two wall-clock values are localized at the same offset from UTC. For a
    value that exists with its flag, in a zone whose daylight offset is one
    hour ahead, the gap is one hour, except that it is two hours for a
    standard-time value with daylight-saving time in force both one and two
    hours before its instant. *)
Theorem hour_ending_one_hour_earlier_iff_same_offset :
  forall (ts : naive) (d : bool),
  exists he hb : instant,
    @ERCOTClient.utcify (spec_utcify tz) (VTime ts) (Some true) (Some d) = Ok he
    /\ @ERCOTClient.utcify (spec_utcify tz) (VTime ts) (Some false) (Some d) = Ok hb
    /\ @ERCOTClient.utcify (spec_utcify tz) (VTime ts) (Some true) (Some d)
       = @ERCOTClient.utcify (spec_utcify tz)
           (VTime (ts - 3600 * 1000000)) (Some false) (Some d)
    /\ (he = hb - 3600 * 1000000
        <-> chosen_offset tz (ts - 3600 * 1000000) d = chosen_offset tz ts d)
    /\ (dst_offset tz = std_offset tz + 3600 * 1000000 ->
        valid_local tz ts d = true ->
        he = if negb d && dst_in_force tz (hb - 3600 * 1000000)
                && dst_in_force tz (hb - 2 * (3600 * 1000000))
             then hb - 2 * (3600 * 1000000) else hb - 3600 * 1000000).
Proof.
  intros ts d.
  exists (localize tz (ts - timedelta_hours 1) d), (localize tz ts d).
  split; [reflexivity|]. split; [reflexivity|]. split; [reflexivity|].
  split.
  - unfold localize.
    change (timedelta_hours 1) with (3600 * 1000000).
    lia.
  - intros Hoff Hvalid.
    exact (hour_ending_gap_when_valid ts d Hoff Hvalid).
Qed.

(** C5: for a wall-clock value that exists with its flag, normalizing it
    under either hour convention and re-expressing the instant in local
    civil time under the same convention gives the value back. *)
Theorem utcify_round_trip :
  forall (ts : naive) (hour_ending d : bool),
    dst_offset tz = std_offset tz + 3600 * 1000000 ->
    valid_local tz ts d = true ->
    exists u : instant,
      @ERCOTClient.utcify (spec_utcify tz) (VTime ts) (Some hour_ending)
        (Some d)
      = Ok u
      /\ express tz hour_ending u = ts.
Proof.
  intros ts he d Hoff Hvalid.
  rewrite utcify_spec_Ok. eexists. split; [reflexivity|].
  now apply round_trip_in_zone.
Qed.

End Localization.

(** C4, witness: a summer afternoon, where both readings are daylight time. *)
Lemma hour_ending_one_hour_earlier_summer :
  exists he hb : instant,
    @ERCOTClient.utcify (spec_utcify Base.US_Central)
      (VTime (datetime 2014 7 14 12 55 3)) (Some true) (Some true) = Ok he
    /\ @ERCOTClient.utcify (spec_utcify Base.US_Central)
      (VTime (datetime 2014 7 14 12 55 3)) (Some false) (Some true) = Ok hb
    /\ he = hb - 3600 * 1000000.
Proof.
  destruct (hour_ending_one_hour_earlier_iff_same_offset Base.US_Central
              (datetime 2014 7 14 12 55 3) true)
    as (he & hb & Hhe & Hhb & _ & Hiff & _).
  exists he, hb. split; [exact Hhe|]. split; [exact Hhb|].
  apply Hiff. vm_compute. reflexivity.
Defined.

(** C4, counterexample: 01:30 standard time on 2 November 2014, in the hour
    repeated when daylight-saving time ended. Read as hour beginning it is
    07:30 UTC; read as hour ending it is 05:30 UTC, two hours earlier. *)
Lemma hour_ending_two_hours_earlier_at_fall_back :
  Base.valid_local Base.US_Central (datetime 2014 11 2 1 30 0) false = true
  /\ @ERCOTClient.utcify (spec_utcify Base.US_Central)
       (VTime (datetime 2014 11 2 1 30 0)) (Some true) (Some false)
     = Ok (datetime 2014 11 2 5 30 0)
  /\ @ERCOTClient.utcify (spec_utcify Base.US_Central)
       (VTime (datetime 2014 11 2 1 30 0)) (Some false) (Some false)
     = Ok (datetime 2014 11 2 7 30 0)
  /\ datetime 2014 11 2 5 30 0 <> datetime 2014 11 2 7 30 0 - 3600 * 1000000.
Proof.
  split; [vm_compute; reflexivity|].
  split; [vm_compute; reflexivity|].
  split; [vm_compute; reflexivity|].
  vm_compute. discriminate.
Qed.

(** C5, witness: 03:30 daylight time on 9 March 2014, the hour ending just
    after the skipped hour, and 01:30 standard time in the repeated hour of
    2 November 2014. *)
Lemma utcify_round_trip_at_transitions :
  (exists u : instant,
     @ERCOTClient.utcify (spec_utcify Base.US_Central)
       (VTime (datetime 2014 3 9 3 30 0)) (Some true) (Some true) = Ok u
     /\ Base.express Base.US_Central true u = datetime 2014 3 9 3 30 0)
  /\ (exists u : instant,
     @ERCOTClient.utcify (spec_utcify Base.US_Central)
       (VTime (datetime 2014 11 2 1 30 0)) (Some true) (Some false) = Ok u
     /\ Base.express Base.US_Central true u = datetime 2014 11 2 1 30 0).
Proof.
  split.
  - apply (utcify_round_trip Base.US_Central (datetime 2014 3 9 3 30 0)
             true true); vm_compute; reflexivity.
  - apply (utcify_round_trip Base.US_Central (datetime 2014 11 2 1 30 0)
             true false); vm_compute; reflexivity.
Defined.

(** ** Report locator and materializer *)

Section Reports.
Context {base : BaseClient} {libs : Libraries}.
Import ERCOTClient.



Lemma find_endpoint_nonempty (trs : list Tr) (endpoint : string) :
  find_endpoint trs = Some endpoint -> String.eqb endpoint "" = false.
Proof.
  induction trs as [|e trs IH]; simpl; [discriminate|].
  destruct (label e) as [l|]; [|exact IH].
  destruct (Py.contains "csv" l); [|exact IH].
  intros [= <-]. reflexivity.
Qed.

(** What [_request_report] does once the listing has come back. *)
Lemma request_report_listed (report_type report_type_id : string)
    (resp : Base.Response) (tr : trace) :
  dict_get report_type_ids report_type = Ok report_type_id ->
  request (base_report_url ++ "/misapp/GetReports.do")
    [("reportTypeId", report_type_id)] = Some resp ->
  _request_report report_type tr
  = let soup := BeautifulSoup (Base.content resp) in
    let tr1 := (tr ++ [Request (base_report_url ++ "/misapp/GetReports.do")
                         [("reportTypeId", report_type_id)]])%list in
    match find_endpoint (find_all_tr soup) with
    | Some endpoint => read_report endpoint tr1
    | None =>
        (Raise (ValueError (no_report_message report_type soup)), tr1)
    end.
Proof.
  intros Hid Hresp. unfold _request_report.
  rewrite (bind_lift_Ok _ _ _ _ Hid).
  unfold do_request, bind, emit, ret, lift. rewrite Hresp. cbn zeta.
  destruct (find_endpoint _) as [endpoint|] eqn:E; [|reflexivity].
  now rewrite (find_endpoint_nonempty _ _ E).
Qed.

Lemma read_report_falsy (endpoint : string) (tr : trace) :
  request endpoint [] = None ->
  read_report endpoint tr
  = (Ok empty_DataFrame, (tr ++ [Request endpoint []])%list).
Proof.
  intros H. unfold read_report, do_request, bind, emit, ret.
  now rewrite H.
Qed.

Lemma read_report_populated (endpoint : string) (tr : trace)
    (resp : Base.Response) (member : string) (rest : list string)
    (decoded : string) (raw : DataFrame) :
  request endpoint [] = Some resp ->
  unzip (Base.content resp) = Some (member :: rest) ->
  decode_unicode_escape member = Ok decoded ->
  read_csv decoded = Ok raw ->
  read_report endpoint tr
  = (Ok (dropna (strip_columns raw)), (tr ++ [Request endpoint []])%list).
Proof.
  intros H1 H2 H3 H4. unfold read_report, do_request, bind, emit, ret, lift.
  rewrite H1, H2. cbn. now rewrite H3, H4.
Qed.



(** C7: once an endpoint has been located, a falsy answer to its download
    gives the empty table and no error; a populated answer gives the parsed
    table with every column label stripped of surrounding whitespace and
    without the rows that hold a null in any column, the other rows kept in
    order. *)
Theorem request_report_table :
  forall (report_type report_type_id endpoint : string)
         (listing_resp : Base.Response) (tr : trace),
    dict_get report_type_ids report_type = Ok report_type_id ->
    request "http://mis.ercot.com/misapp/GetReports.do"
      [("reportTypeId", report_type_id)] = Some listing_resp ->
    find_endpoint (find_all_tr (BeautifulSoup (Base.content listing_resp)))
      = Some endpoint ->
    let tr2 := (tr ++ [Request "http://mis.ercot.com/misapp/GetReports.do"
                         [("reportTypeId", report_type_id)];
                       Request endpoint []])%list in
    (request endpoint [] = None ->
     _request_report report_type tr = (Ok empty_DataFrame, tr2)
     /\ columns empty_DataFrame = [] /\ rows empty_DataFrame = [])
    /\ (forall (resp : Base.Response) (member : string) (rest : list string)
               (decoded : string) (raw : DataFrame),
        request endpoint [] = Some resp ->
        unzip (Base.content resp) = Some (member :: rest) ->
        decode_unicode_escape member = Ok decoded ->
        read_csv decoded = Ok raw ->
        exists df : DataFrame,
          _request_report report_type tr = (Ok df, tr2)
          /\ columns df = map Py.strip (columns raw)
          /\ forallb trimmed (columns df) = true
          /\ rows df
             = filter (fun cells => negb (existsb isnull cells)) (rows raw)
          /\ (forall cells : list value,
                 In cells (rows df)
                 <-> In cells (rows raw) /\ existsb isnull cells = false)).
Proof.
  intros report_type report_type_id endpoint listing_resp tr Hid Hresp Hfind
    tr2.
  pose proof (request_report_listed _ _ _ tr Hid Hresp) as E.
  cbv zeta in E. rewrite Hfind in E.
  assert (Htr : forall a b : event, ((tr ++ [a]) ++ [b] = tr ++ [a; b])%list)
    by (intros; now rewrite <- app_assoc).
  split.
  - intros Hnone. rewrite E, (read_report_falsy _ _ Hnone).
    unfold tr2. now rewrite Htr.
  - intros resp member rest decoded raw H1 H2 H3 H4.
    exists (dropna (strip_columns raw)).
    rewrite E, (read_report_populated _ _ _ _ _ _ _ H1 H2 H3 H4).
    unfold tr2. rewrite Htr.
    split; [reflexivity|]. split; [reflexivity|].
    split; [|split; [reflexivity|]].
    + simpl. apply forallb_forall. intros c Hc.
      apply in_map_iff in Hc as (c0 & <- & _). apply strip_trimmed.
    + intros cells. simpl. rewrite filter_In, negb_true_iff. tauto.
Qed.

End Reports.


(** C7, witness: nothing published behind the link gives the empty table; the
    raw wind report loses its padded labels and its two rows with a missing
    field. *)
Lemma request_report_table_at_site :
  Sim._request_report Sim.unpublished "wind_hrly"
  = (Ok empty_DataFrame,
     [Request "http://mis.ercot.com/misapp/GetReports.do"
        [("reportTypeId", "13028")];
      Request "http://mis.ercot.com/misdownload/wind.csv.zip" []])
  /\ exists df : DataFrame,
      Sim._request_report (Sim.ercot Sim.raw_wind Sim.raw_wind) "wind_hrly"
      = (Ok df,
         [Request "http://mis.ercot.com/misapp/GetReports.do"
            [("reportTypeId", "13028")];
          Request "http://mis.ercot.com/misdownload/wind.csv.zip" []])
      /\ columns df = ["HOUR_BEGINNING"; "DSTFlag"; "ACTUAL_SYSTEM_WIDE"]
      /\ rows df = [ [VTime (datetime 2014 7 14 11 0 0); VStr "Y";
                      VFloat (Py.float_of_Z 250)] ].
Proof.
  split.
  - pose proof (@request_report_table
                  (Sim.client Sim.unpublished) (Sim.libraries Sim.unpublished)
                  "wind_hrly" "13028"
                  "http://mis.ercot.com/misdownload/wind.csv.zip"
                  {| Base.content := "13028"; Base.text := "13028" |} []
                  eq_refl eq_refl eq_refl) as H.
    cbv zeta in H. destruct H as [H _].
    exact (proj1 (H eq_refl)).
  - pose proof (@request_report_table
                  (Sim.client (Sim.ercot Sim.raw_wind Sim.raw_wind))
                  (Sim.libraries (Sim.ercot Sim.raw_wind Sim.raw_wind))
                  "wind_hrly" "13028"
                  "http://mis.ercot.com/misdownload/wind.csv.zip"
                  {| Base.content := "13028"; Base.text := "13028" |} []
                  eq_refl eq_refl eq_refl) as H.
    cbv zeta in H. destruct H as [_ H].
    destruct (H {| Base.content :=
                     "http://mis.ercot.com/misdownload/wind.csv.zip";
                   Base.text :=
                     "http://mis.ercot.com/misdownload/wind.csv.zip" |}
                "http://mis.ercot.com/misdownload/wind.csv.zip" []
                "http://mis.ercot.com/misdownload/wind.csv.zip" Sim.raw_wind
                eq_refl eq_refl eq_refl eq_refl)
      as (df & Hrun & Hcols & _ & Hrows & _).
    exists df. split; [exact Hrun|]. split.
    + rewrite Hcols. reflexivity.
    + rewrite Hrows. reflexivity.
Defined.

(** ** Generation reconciler *)

Section Generation.
Context {base_time : BaseUtcify} {base : BaseClient} {libs : Libraries}.
Import ERCOTClient.







(** C10: [get_generation] takes [latest] and further keyword arguments and
    its outcome, result and events alike, is the same whatever they are. *)
Theorem get_generation_ignores_arguments :
  forall (latest latest' : bool) (kwargs kwargs' : Kwargs) (tr : trace),
    get_generation latest kwargs tr = get_generation latest' kwargs' tr.
Proof.
intros latest latest' kwargs kwargs' tr.
unfold get_generation. reflexivity.
Qed.

End Generation.




(** ** Load series builder *)


Lemma hours_of_the_day (h : Z) :
  1 <= h <= 24 -> In h (map Z.of_nat (seq 1 24)).
Proof.
  intros H. apply in_map_iff. exists (Z.to_nat h).
  split; [lia|]. apply in_seq. lia.
Qed.

Section Load.
Context {base_time : BaseUtcify} {base : BaseClient} {libs : Libraries}.
Import ERCOTClient.



(** C9: when the resolved options ask neither for the latest load nor for
    the forecast, [get_load] raises the error that says so, and no event,
    so no request, has been added to the trace. *)
Theorem get_load_requires_a_mode :
  forall (latest : bool) (kwargs : Kwargs) (tr : trace),
    Base.latest (handle_options "load" latest kwargs) = false ->
    Base.forecast (handle_options "load" latest kwargs) = false ->
    get_load latest kwargs tr
    = (Raise (ValueError
                "Load only available for latest or forecast in ERCOT"),
       tr).
Proof.
  intros latest kwargs tr Hlatest Hforecast.
  unfold get_load. cbv zeta. now rewrite Hlatest, Hforecast.
Qed.

End Load.


(** C9, witness: a call without [latest] and without [forecast] at the
    simulated site. *)
Lemma get_load_requires_a_mode_at_site :
  @ERCOTClient.get_load (spec_utcify Base.US_Central)
    (Sim.client Sim.unpublished) (Sim.libraries Sim.unpublished)
    false [] []
  = (Raise (ValueError "Load only available for latest or forecast in ERCOT"),
     []).
Proof.
  apply (@get_load_requires_a_mode (spec_utcify Base.US_Central)
           (Sim.client Sim.unpublished) (Sim.libraries Sim.unpublished)
           false [] []); reflexivity.
Defined.

(** * Further properties of the client *)

(** ** Report locator and materializer: errors, events and the table *)

Lemma dict_get_missing (d : list (string * string)) (key : string) :
  ~ In key (map fst d) -> dict_get d key = Raise (KeyError key).
Proof.
  induction d as [|[k v] d IH]; simpl; [reflexivity|]. intros H.
  destruct (String.eqb_spec k key) as [->|_]; [tauto|].
  apply IH. tauto.
Qed.


Lemma filter_twice {A} (f : A -> bool) (l : list A) :
  filter f (filter f l) = filter f l.
Proof.
  induction l as [|a l IH]; simpl; [reflexivity|].
  destruct (f a) eqn:E; simpl; [rewrite E|]; now rewrite IH.
Qed.

Lemma lstrip_fixed (s : string) :
  Py.starts_with_space s = false -> Py.lstrip s = s.
Proof. destruct s as [|c r]; simpl; [reflexivity|]. now intros ->. Qed.

Lemma rstrip_fixed (s : string) :
  Py.ends_with_space s = false -> Py.rstrip s = s.
Proof.
  induction s as [|c r IH]; simpl; [reflexivity|].
  destruct r as [|c' r'].
  - simpl. now intros ->.
  - intros H. rewrite (IH H). reflexivity.
Qed.

Lemma strip_fixed (s : string) : trimmed s = true -> Py.strip s = s.
Proof.
  unfold trimmed, Py.strip. intros H.
  apply andb_prop in H as [H1 H2].
  apply negb_true_iff in H1. apply negb_true_iff in H2.
  now rewrite (lstrip_fixed _ H1), (rstrip_fixed _ H2).
Qed.

Lemma clean_table (raw : DataFrame) :
  let df := dropna (strip_columns raw) in
  forallb trimmed (columns df) = true
  /\ forallb no_null (rows df) = true
  /\ dropna df = df
  /\ strip_columns df = df.
Proof.
  cbv zeta. unfold dropna, strip_columns. simpl. repeat split.
  - apply forallb_forall. intros c Hc.
    apply in_map_iff in Hc as (c0 & <- & _). apply strip_trimmed.
  - apply forallb_forall. intros cells Hc.
    apply filter_In in Hc as [_ Hc]. apply negb_true_iff in Hc.
    unfold no_null. apply forallb_forall. intros v Hv.
    destruct (isnull v) eqn:E; [|reflexivity].
    assert (existsb isnull cells = true) as Hex
      by (apply existsb_exists; eauto).
    congruence.
  - now rewrite filter_twice.
  - f_equal. rewrite map_map. apply map_ext.
    intros c. apply strip_fixed, strip_trimmed.
Qed.

Section ReportsMore.
Context {base : BaseClient} {libs : Libraries}.
Import ERCOTClient.

Lemma read_report_Ok (endpoint : string) (tr tr' : trace) (df : DataFrame) :
  read_report endpoint tr = (Ok df, tr') ->
  tr' = (tr ++ [Request endpoint []])%list
  /\ (df = empty_DataFrame \/ exists raw, df = dropna (strip_columns raw)).
Proof.
  unfold read_report, do_request, bind, emit, ret, lift.
  destruct (request endpoint []) as [resp|].
  - destruct (first_member _); [|discriminate].
    destruct (decode_unicode_escape _); [|discriminate].
    destruct (read_csv _) as [raw|]; [|discriminate].
    intros [= <- <-]. eauto.
  - intros [= <- <-]. auto.
Qed.

Lemma request_report_Ok (report_type : string) (tr tr' : trace)
    (df : DataFrame) :
  _request_report report_type tr = (Ok df, tr') ->
  exists report_type_id endpoint : string,
    dict_get report_type_ids report_type = Ok report_type_id
    /\ tr' = (tr ++ [Request "http://mis.ercot.com/misapp/GetReports.do"
                       [("reportTypeId", report_type_id)];
                     Request endpoint []])%list
    /\ (df = empty_DataFrame \/ exists raw, df = dropna (strip_columns raw)).
Proof.
  unfold _request_report. unfold bind at 1, lift.
  destruct (dict_get report_type_ids report_type) as [id|]; [|discriminate].
  unfold do_request, bind, emit, ret, lift.
  destruct (request _ _) as [resp|]; [|discriminate].
  cbv zeta.
  destruct (find_endpoint _) as [endpoint|]; [|discriminate].
  destruct (String.eqb endpoint ""); [discriminate|].
  intros H. apply read_report_Ok in H as [-> H].
  exists id, endpoint. split; [reflexivity|]. split; [|exact H].
  now rewrite <- app_assoc.
Qed.

(** X1: a report type that is not one of the four keys of
    [report_type_ids] raises [KeyError] with that name, before any request
    is made. *)
Theorem request_report_unknown_type :
  forall (report_type : string) (tr : trace),
    ~ In report_type ["wind_5min"; "wind_hrly"; "gen_hrly"; "load_7day"] ->
    _request_report report_type tr = (Raise (KeyError report_type), tr).
Proof.
  intros report_type tr H. unfold _request_report.
  unfold bind at 1, lift.
  now rewrite (dict_get_missing report_type_ids report_type H).
Qed.

(** X2: a falsy answer to the request for the listing is not the empty
    table that a falsy answer to the download gives: reading its content
    raises [AttributeError], after that one request. *)
Theorem request_report_listing_falsy :
  forall (report_type report_type_id : string) (tr : trace),
    dict_get report_type_ids report_type = Ok report_type_id ->
    request "http://mis.ercot.com/misapp/GetReports.do"
      [("reportTypeId", report_type_id)] = None ->
    _request_report report_type tr
    = (Raise AttributeError,
       (tr ++ [Request "http://mis.ercot.com/misapp/GetReports.do"
                 [("reportTypeId", report_type_id)]])%list).
Proof.
  intros report_type report_type_id tr Hid Hnone. unfold _request_report.
  rewrite (bind_lift_Ok _ _ _ _ Hid).
  unfold do_request, bind, emit, ret, lift.
  change (base_report_url ++ "/misapp/GetReports.do")
    with "http://mis.ercot.com/misapp/GetReports.do".
  now rewrite Hnone.
Qed.

(** X3: every table [_request_report] returns, the empty one included, is
    clean: its column labels carry no surrounding whitespace, none of its
    rows holds a null, and stripping the labels or dropping null rows again
    changes nothing. *)
Theorem request_report_table_clean :
  forall (report_type : string) (tr tr' : trace) (df : DataFrame),
    _request_report report_type tr = (Ok df, tr') ->
    forallb trimmed (columns df) = true
    /\ forallb no_null (rows df) = true
    /\ dropna df = df
    /\ strip_columns df = df.
Proof.
  intros report_type tr tr' df H.
  apply request_report_Ok in H as (_ & _ & _ & _ & [->|[raw ->]]).
  - repeat split.
  - apply clean_table.
Qed.



End ReportsMore.

(** X1, witness: no report type is called load_5min. *)
Lemma request_report_unknown_type_at_site :
  Sim._request_report Sim.offline "load_5min"
  = (Raise (KeyError "load_5min"), []).
Proof.
  apply (@request_report_unknown_type
           (Sim.client Sim.offline) (Sim.libraries Sim.offline)
           "load_5min" []).
  intros [H|[H|[H|[H|[]]]]]; discriminate.
Defined.

(** X2, witness: the site that answers nothing, asked for the total
    generation report. *)
Lemma request_report_listing_falsy_at_site :
  Sim._request_report Sim.offline "gen_hrly"
  = (Raise AttributeError,
     [Request "http://mis.ercot.com/misapp/GetReports.do"
        [("reportTypeId", "12358")]]).
Proof.
  apply (@request_report_listing_falsy
           (Sim.client Sim.offline) (Sim.libraries Sim.offline)
           "gen_hrly" "12358" []); reflexivity.
Defined.

(** X3, witness: the raw wind report of the simulated site, with its padded
    labels and its rows with a missing field, comes back clean. *)
Lemma request_report_table_clean_at_site :
  forallb trimmed (columns (dropna (strip_columns Sim.raw_wind))) = true
  /\ forallb no_null (rows (dropna (strip_columns Sim.raw_wind))) = true
  /\ dropna (dropna (strip_columns Sim.raw_wind))
     = dropna (strip_columns Sim.raw_wind)
  /\ strip_columns (dropna (strip_columns Sim.raw_wind))
     = dropna (strip_columns Sim.raw_wind).
Proof.
  apply (@request_report_table_clean
           (Sim.client (Sim.ercot Sim.raw_wind Sim.raw_wind))
           (Sim.libraries (Sim.ercot Sim.raw_wind Sim.raw_wind))
           "wind_hrly" [] Sim.wind_requests).
  vm_compute. reflexivity.
Defined.

(** ** Generation reconciler: errors and what the call returns *)

Section GenerationMore.
Context {base_time : BaseUtcify} {base : BaseClient} {libs : Libraries}.
Import ERCOTClient.





(** X7: a total-generation report that has been located but answers the
    download with a falsy response gives the empty table, and the call then
    raises [IndexError] on its first row; the wind report is not requested. *)
Theorem get_generation_total_unpublished :
  forall (latest : bool) (kwargs : Kwargs) (tr : trace)
         (listing_resp : Base.Response) (endpoint : string),
    request "http://mis.ercot.com/misapp/GetReports.do"
      [("reportTypeId", "12358")] = Some listing_resp ->
    find_endpoint (find_all_tr (BeautifulSoup (Base.content listing_resp)))
      = Some endpoint ->
    request endpoint [] = None ->
    get_generation latest kwargs tr
    = (Raise IndexError,
       (tr ++ [Request "http://mis.ercot.com/misapp/GetReports.do"
                 [("reportTypeId", "12358")];
               Request endpoint []])%list).
Proof.
  intros latest kwargs tr listing_resp endpoint Hresp Hfind Hnone.
  assert (Hgen : _request_report "gen_hrly" tr
                 = (Ok empty_DataFrame,
                    (tr ++ [Request "http://mis.ercot.com/misapp/GetReports.do"
                              [("reportTypeId", "12358")];
                            Request endpoint []])%list)).
  { rewrite (request_report_listed "gen_hrly" "12358" _ tr eq_refl Hresp).
    cbv zeta. rewrite Hfind, (read_report_falsy _ _ Hnone).
    now rewrite <- app_assoc. }
  unfold get_generation. rewrite (bind_Ok _ _ _ _ _ Hgen). reflexivity.
Qed.

(** X8: an error of [float] on the total, a [ValueError] included, is not
    taken for missing data as it is for the wind value: it leaves the call,
    before the wind report is requested and without a log line. *)
Theorem get_generation_total_unparseable :
  forall (latest : bool) (kwargs : Kwargs) (tr tr1 : trace)
         (gen_df : DataFrame) (total_dp : Row) (se_mw : value) (e : exn),
    _request_report "gen_hrly" tr = (Ok gen_df, tr1) ->
    iloc_0 gen_df = Ok total_dp ->
    getitem total_dp "SE_MW" = Ok se_mw ->
    float_of se_mw = Raise e ->
    get_generation latest kwargs tr = (Raise e, tr1).
Proof.
  intros latest kwargs tr tr1 gen_df total_dp se_mw e Hgen Hrow Hget Hfloat.
  unfold get_generation.
  rewrite (bind_Ok _ _ _ _ _ Hgen), (bind_lift_Ok _ _ _ _ Hrow).
  unfold bind, lift. now rewrite Hget; simpl; rewrite Hfloat.
Qed.

(** X9: the snapshot's timestamp has to be a date-time value. When the cell
    under [SE_EXE_TIME] is anything else, text included, taking the hour off
    it raises [TypeError], whatever the base normalizer would make of it,
    and the wind report is not requested. *)
Theorem get_generation_timestamp_not_a_datetime :
  forall (latest : bool) (kwargs : Kwargs) (tr tr1 : trace)
         (gen_df : DataFrame) (total_dp : Row) (se_mw exe_time flag : value)
         (total_gen : Py.float),
    _request_report "gen_hrly" tr = (Ok gen_df, tr1) ->
    iloc_0 gen_df = Ok total_dp ->
    getitem total_dp "SE_MW" = Ok se_mw ->
    float_of se_mw = Ok total_gen ->
    getitem total_dp "SE_EXE_TIME" = Ok exe_time ->
    (forall t : naive, exe_time <> VTime t) ->
    getitem total_dp "SE_EXE_TIME_DST" = Ok flag ->
    get_generation latest kwargs tr = (Raise TypeError, tr1).
Proof.
  intros latest kwargs tr tr1 gen_df total_dp se_mw exe_time flag total_gen
    Hgen Hrow Hget Hfloat Htime Hnot Hflag.
  unfold get_generation.
  rewrite (bind_Ok _ _ _ _ _ Hgen), (bind_lift_Ok _ _ _ _ Hrow).
  unfold bind, lift. rewrite Hget. simpl. rewrite Hfloat, Htime. simpl.
  rewrite Hflag. simpl. unfold utcify, sub_hour. simpl.
  destruct exe_time as [| | | |t]; try reflexivity.
  now destruct (Hnot t).
Qed.




End GenerationMore.


(** X7, witness: the site that lists its reports and has published none. *)
Lemma get_generation_total_unpublished_at_site :
  Sim.run_generation Sim.unpublished
  = (Raise IndexError, Sim.gen_requests).
Proof.
  apply (@get_generation_total_unpublished (spec_utcify Base.US_Central)
           (Sim.client Sim.unpublished) (Sim.libraries Sim.unpublished)
           false [] []
           {| Base.content := "12358"; Base.text := "12358" |}
           "http://mis.ercot.com/misdownload/gen.csv.zip");
    reflexivity.
Defined.

(** X8, witness: a total that reads "n/a". *)
Lemma get_generation_total_unparseable_at_site :
  Sim.run_generation
    (Sim.ercot (Sim.gen_table Sim.snapshot_time "d" (VStr "n/a"))
       Sim.wind_three_hours)
  = (Raise (ValueError "could not convert string to float: n/a"),
     Sim.gen_requests).
Proof.
  apply (@get_generation_total_unparseable (spec_utcify Base.US_Central)
           (Sim.client (Sim.ercot
              (Sim.gen_table Sim.snapshot_time "d" (VStr "n/a"))
              Sim.wind_three_hours))
           (Sim.libraries (Sim.ercot
              (Sim.gen_table Sim.snapshot_time "d" (VStr "n/a"))
              Sim.wind_three_hours))
           false [] [] Sim.gen_requests
           (Sim.gen_table Sim.snapshot_time "d" (VStr "n/a"))
           (Sim.gen_row Sim.snapshot_time "d" (VStr "n/a"))
           (VStr "n/a"));
    vm_compute; reflexivity.
Defined.

(** X9, witness: a snapshot whose timestamp is text, with a base normalizer
    that would read that text. *)
Lemma get_generation_timestamp_not_a_datetime_at_site :
  @ERCOTClient.get_generation
    (Sim.text_utcify [("07/14/2014 12:55:03", Sim.snapshot_time)])
    (Sim.client (Sim.ercot
       (Sim.gen_table_text "07/14/2014 12:55:03" "d" (Sim.number "1000.0"))
       Sim.wind_three_hours))
    (Sim.libraries (Sim.ercot
       (Sim.gen_table_text "07/14/2014 12:55:03" "d" (Sim.number "1000.0"))
       Sim.wind_three_hours))
    false [] []
  = (Raise TypeError, Sim.gen_requests).
Proof.
  apply (@get_generation_timestamp_not_a_datetime
           (Sim.text_utcify [("07/14/2014 12:55:03", Sim.snapshot_time)])
           (Sim.client (Sim.ercot
              (Sim.gen_table_text "07/14/2014 12:55:03" "d"
                 (Sim.number "1000.0"))
              Sim.wind_three_hours))
           (Sim.libraries (Sim.ercot
              (Sim.gen_table_text "07/14/2014 12:55:03" "d"
                 (Sim.number "1000.0"))
              Sim.wind_three_hours))
           false [] [] Sim.gen_requests
           (Sim.gen_table_text "07/14/2014 12:55:03" "d"
              (Sim.number "1000.0"))
           [ ("SE_EXE_TIME", VStr "07/14/2014 12:55:03");
             ("SE_EXE_TIME_DST", VStr "d");
             ("SE_MW", Sim.number "1000.0") ]
           (Sim.number "1000.0") (VStr "07/14/2014 12:55:03") (VStr "d")
           (Py.float_of_Z 1000));
    try (vm_compute; reflexivity).
  intros t. discriminate.
Defined.




(** ** Load series builder: the latest load and the forecast index *)

Lemma lstrip_chars_fixed (chars s : string) :
  first_in chars s = false -> Py.lstrip_chars chars s = s.
Proof. destruct s as [|c r]; simpl; [reflexivity|]. now intros ->. Qed.

Lemma rstrip_chars_fixed (chars s : string) :
  last_in chars s = false -> Py.rstrip_chars chars s = s.
Proof.
  induction s as [|c r IH]; simpl; [reflexivity|].
  destruct r as [|c' r'].
  - simpl. now intros ->.
  - intros H. rewrite (IH H). reflexivity.
Qed.

Lemma lstrip_chars_first (chars s : string) :
  first_in chars (Py.lstrip_chars chars s) = false.
Proof.
  induction s as [|c r IH]; simpl; [reflexivity|].
  destruct (Py.mem_char c chars) eqn:E; [exact IH|]. simpl. exact E.
Qed.

Lemma rstrip_chars_first (chars s : string) :
  first_in chars s = false -> first_in chars (Py.rstrip_chars chars s) = false.
Proof.
  destruct s as [|c r]; simpl; [reflexivity|]. intros E.
  destruct (Py.rstrip_chars chars r); [rewrite E|]; simpl; auto.
Qed.

Lemma rstrip_chars_last (chars s : string) :
  last_in chars (Py.rstrip_chars chars s) = false.
Proof.
  induction s as [|c r IH]; simpl; [reflexivity|].
  destruct (Py.rstrip_chars chars r) as [|c' r'] eqn:E.
  - destruct (Py.mem_char c chars) eqn:Ec; simpl; auto.
  - exact IH.
Qed.

Lemma mapR_first_error {A B} (f : A -> result B) (pre : list A) (a : A)
    (post : list A) (e : exn) :
  Forall (fun x => exists b, f x = Ok b) pre ->
  f a = Raise e ->
  mapR f (pre ++ a :: post) = Raise e.
Proof.
  intros Hpre Ha. induction Hpre as [|x pre [b Hb] _ IH]; simpl.
  - now rewrite Ha.
  - now rewrite Hb, IH.
Qed.

Lemma int_of_hour_ending_label (h : Z) :
  1 <= h <= 24 ->
  Py.int_of_string (Py.split_head ":" (hour_ending_label h)) = Some h.
Proof.
  intros Hh. apply hours_of_the_day in Hh.
  assert (Hall :
    forallb (fun h =>
               match Py.int_of_string
                       (Py.split_head ":" (hour_ending_label h)) with
               | Some n => n =? h
               | None => false
               end)
            (map Z.of_nat (seq 1 24)) = true)
    by (vm_compute; reflexivity).
  apply (proj1 (forallb_forall _ _) Hall) in Hh.
  destruct (Py.int_of_string _) as [n|]; [|discriminate].
  apply Z.eqb_eq in Hh. now subst.
Qed.

(** X13: what [strip('Last Updated ')] leaves. The result never begins or
    ends with one of the characters of 'Last Updated ', so the call takes
    characters off, not the prefix; it gives back the text behind the prefix
    exactly when that text neither begins nor ends with one of them. *)
Theorem strip_last_updated :
  forall text body : string,
    first_in "Last Updated " (Py.strip_chars "Last Updated " text) = false
    /\ last_in "Last Updated " (Py.strip_chars "Last Updated " text) = false
    /\ (Py.strip_chars "Last Updated " ("Last Updated " ++ body) = body
        <-> first_in "Last Updated " body = false
            /\ last_in "Last Updated " body = false).
Proof.
  intros text body. unfold Py.strip_chars.
  split; [|split; [|split]].
  - apply rstrip_chars_first, lstrip_chars_first.
  - apply rstrip_chars_last.
  - intros H. rewrite <- H at 1 2. split.
    + apply rstrip_chars_first, lstrip_chars_first.
    + apply rstrip_chars_last.
  - intros [Hf Hl].
    change (Py.lstrip_chars "Last Updated " ("Last Updated " ++ body))
      with (Py.lstrip_chars "Last Updated " body).
    now rewrite (lstrip_chars_fixed _ _ Hf), (rstrip_chars_fixed _ _ Hl).
Qed.

Section LoadMore.
Context {base_time : BaseUtcify} {base : BaseClient} {libs : Libraries}.
Import ERCOTClient.



(** X15: a falsy answer to the request for the real-time page raises
    [AttributeError]; it is not turned into an empty result. *)
Theorem get_load_latest_falsy :
  forall (latest : bool) (kwargs : Kwargs) (tr : trace),
    Base.latest (handle_options "load" latest kwargs) = true ->
    request
      "http://www.ercot.com/content/cdr/html/real_time_system_conditions.html"
      [] = None ->
    get_load latest kwargs tr
    = (Raise AttributeError,
       (tr ++ [Request
                 "http://www.ercot.com/content/cdr/html/real_time_system_conditions.html"
                 []])%list).
Proof.
  intros latest kwargs tr Hlatest Hnone. unfold get_load. cbv zeta.
  rewrite Hlatest. unfold do_request, bind, emit, ret, lift.
  now rewrite Hnone.
Qed.

(** X16: the latest load is exactly one point: the demand value of the page
    as a float, at the instant the base normalizer, given no hour
    convention and no flag, makes of the update line less the characters
    of 'Last Updated '; [market] and [freq] are those of the options and
    five minutes where the options name none. *)
Theorem get_load_latest_point :
  forall (latest : bool) (kwargs : Kwargs) (tr : trace)
         (resp : Base.Response) (demand updated : string)
         (load_val : Py.float) (ts : instant),
    let options := handle_options "load" latest kwargs in
    let soup := BeautifulSoup (Base.text resp) in
    Base.latest options = true ->
    request
      "http://www.ercot.com/content/cdr/html/real_time_system_conditions.html"
      [] = Some resp ->
    actual_system_demand soup = Some demand ->
    Py.float_of_string demand = Some load_val ->
    last_updated soup = Some updated ->
    super_utcify (VStr (Py.strip_chars "Last Updated " updated)) None = Ok ts ->
    get_load latest kwargs tr
    = (Ok [ {| load_timestamp := ts;
               load_ba_name := "ERCOT";
               load_market := match Base.opt_market options with
                              | Some m => m
                              | None => Base.MARKET_fivemin
                              end;
               load_freq := match Base.opt_freq options with
                            | Some f => f
                            | None => Base.FREQUENCY_fivemin
                            end;
               load_MW := VFloat load_val |} ],
       (tr ++ [Request
                 "http://www.ercot.com/content/cdr/html/real_time_system_conditions.html"
                 []])%list).
Proof.
  intros latest kwargs tr resp demand updated load_val ts options soup
    Hlatest Hresp Hdemand Hfloat Hupdated Hts.
  unfold get_load. cbv zeta. fold options. rewrite Hlatest.
  unfold do_request, bind, emit, ret, lift. rewrite Hresp.
  unfold parse_rtm_load. cbv zeta. fold soup.
  unfold bind, lift, ret. rewrite Hdemand. simpl float_of. rewrite Hfloat.
  rewrite Hupdated. unfold utcify. simpl keyword. cbv iota. simpl bindr.
  rewrite Hts. reflexivity.
Qed.

(** X17: what the page lacks decides the error of the latest load, in the
    order the page is read. No demand value: [AttributeError]. A demand
    value that is not a number: the [ValueError] of [float], also when the
    update line is missing too. A demand value and no update line:
    [AttributeError]. In none of these is anything logged or requested. *)
Theorem parse_rtm_load_errors :
  forall (options : Base.Options) (content : string) (tr : trace),
    let soup := BeautifulSoup content in
    (actual_system_demand soup = None ->
     parse_rtm_load options content tr = (Raise AttributeError, tr))
    /\ (forall demand : string,
           actual_system_demand soup = Some demand ->
           Py.float_of_string demand = None ->
           parse_rtm_load options content tr
           = (Raise (ValueError
                       ("could not convert string to float: " ++ demand)),
              tr))
    /\ (forall (demand : string) (load_val : Py.float),
           actual_system_demand soup = Some demand ->
           Py.float_of_string demand = Some load_val ->
           last_updated soup = None ->
           parse_rtm_load options content tr = (Raise AttributeError, tr)).
Proof.
  intros options content tr soup. unfold parse_rtm_load. cbv zeta.
  fold soup. unfold bind, lift, ret. repeat split.
  - now intros ->.
  - intros demand -> Hf. simpl. now rewrite Hf.
  - intros demand load_val -> Hf Hu. simpl. now rewrite Hf, Hu.
Qed.

(** X18: the index entry of a forecast row. The row for the hour ending at
    [h] o'clock, [h] from 1 to 24, on delivery date [d] gets the hour
    beginning [h - 1], and its timestamp is what the base normalizer makes,
    under the row's own flag and without a shift of an hour, of the date
    parsed from "[d] [h - 1]:00": the hour ending 24:00 is read as 23:00 of
    the same delivery date. *)
Theorem forecast_timestamp_of_row :
  forall (dp : Row) (d : string) (h : Z) (flag : value),
    getitem dp "DeliveryDate" = Ok (VStr d) ->
    getitem dp "HourEnding" = Ok (VStr (hour_ending_label h)) ->
    1 <= h <= 24 ->
    getitem dp "DSTFlag" = Ok flag ->
    with_hour_beginning [dp] = Ok [("HourBeginning", VInt (h - 1)) :: dp]
    /\ forecast_timestamp (("HourBeginning", VInt (h - 1)) :: dp)
       = match to_datetime
                 (d ++ " " ++ NilZero.string_of_int (Z.to_int (h - 1))
                  ++ ":00") with
         | Ok local_ts =>
             super_utcify (VTime local_ts) (Some (is_dst flag "N"))
         | Raise e => Raise e
         end.
Proof.
  intros dp d h flag Hdate Hhe Hh Hflag. split.
  - unfold with_hour_beginning, hour_beginning. cbn [mapR].
    rewrite Hhe. cbn [bindr as_str].
    now rewrite (int_of_hour_ending_label h Hh).
  - unfold forecast_timestamp. cbn [getitem].
    change (String.eqb "HourBeginning" "DeliveryDate") with false.
    change (String.eqb "HourBeginning" "HourBeginning") with true.
    change (String.eqb "HourBeginning" "DSTFlag") with false.
    cbv iota. rewrite Hdate. cbn [bindr format_s].
    destruct (to_datetime _) as [local_ts|]; [|reflexivity].
    cbn [bindr]. rewrite Hflag. reflexivity.
Qed.

(** X19: one forecast row whose [HourEnding] does not give an hour fails the
    whole call with that row's error: the rows before it are not returned
    and the rows after it are not read. *)
Theorem get_load_forecast_bad_row :
  forall (latest : bool) (kwargs : Kwargs) (tr tr1 : trace) (df : DataFrame)
         (pre : list Row) (dp : Row) (post : list Row) (e : exn),
    Base.latest (handle_options "load" latest kwargs) = false ->
    Base.forecast (handle_options "load" latest kwargs) = true ->
    _request_report "load_7day" tr = (Ok df, tr1) ->
    iterrows df = (pre ++ dp :: post)%list ->
    Forall (fun dp => exists hb, hour_beginning dp = Ok hb) pre ->
    hour_beginning dp = Raise e ->
    get_load latest kwargs tr = (Raise e, tr1).
Proof.
  intros latest kwargs tr tr1 df pre dp post e Hlatest Hforecast Hreport
    Hrows Hpre Hdp.
  unfold get_load. cbv zeta. rewrite Hlatest, Hforecast.
  unfold get_load_forecast. rewrite (bind_Ok _ _ _ _ _ Hreport).
  unfold bind, lift, with_hour_beginning. rewrite Hrows.
  rewrite (mapR_first_error _ pre dp post e); [reflexivity| |].
  - revert Hpre. apply Forall_impl. intros a [hb ->]. simpl. eauto.
  - now rewrite Hdp.
Qed.

End LoadMore.


(** X15, witness: the real-time page is not served. *)
Lemma get_load_latest_falsy_at_site :
  @ERCOTClient.get_load (spec_utcify Base.US_Central)
    (Sim.rtm_client None) (Sim.rtm_libraries None None) true [] []
  = (Raise AttributeError, [Request Sim.rtm_url []]).
Proof.
  apply (@get_load_latest_falsy (spec_utcify Base.US_Central)
           (Sim.rtm_client None) (Sim.rtm_libraries None None) true [] []);
    reflexivity.
Defined.

(** X16, witness: a page that shows 51234.5 MW, last updated at 12:55:03
    daylight time on 14 July 2014, which is 17:55:03 UTC. *)
Lemma get_load_latest_point_at_site :
  @ERCOTClient.get_load
    (Sim.text_utcify [("Jul 14, 2014 12:55:03", Sim.snapshot_time)])
    (Sim.rtm_client (Some "page"))
    (Sim.rtm_libraries (Some "51234.5")
       (Some "Last Updated Jul 14, 2014 12:55:03"))
    true [] []
  = (Ok [ {| load_timestamp := datetime 2014 7 14 17 55 3;
             load_ba_name := "ERCOT";
             load_market := Base.MARKET_fivemin;
             load_freq := Base.FREQUENCY_fivemin;
             load_MW := Sim.number "51234.5" |} ],
     [Request Sim.rtm_url []]).
Proof.
  pose proof
    (@get_load_latest_point
       (Sim.text_utcify [("Jul 14, 2014 12:55:03", Sim.snapshot_time)])
       (Sim.rtm_client (Some "page"))
       (Sim.rtm_libraries (Some "51234.5")
          (Some "Last Updated Jul 14, 2014 12:55:03"))
       true [] []
       {| Base.content := "page"; Base.text := "page" |}
       "51234.5" "Last Updated Jul 14, 2014 12:55:03"
       (binary_normalize Py.prec Py.emax 102469 (-1) false)
       (datetime 2014 7 14 17 55 3)) as H.
  cbv zeta in H.
  do 6 specialize (H ltac:(vm_compute; reflexivity)).
  rewrite H. vm_compute. reflexivity.
Defined.

(** X17, witness: a page whose demand value reads "n/a" and that has no
    update line. *)
Lemma parse_rtm_load_errors_at_site :
  @ERCOTClient.parse_rtm_load (spec_utcify Base.US_Central)
    (Sim.rtm_libraries (Some "n/a") None)
    (@handle_options (Sim.rtm_client (Some "page")) "load" true [])
    "page" []
  = (Raise (ValueError "could not convert string to float: n/a"), []).
Proof.
  pose proof
    (@parse_rtm_load_errors (spec_utcify Base.US_Central)
       (Sim.rtm_libraries (Some "n/a") None)
       (@handle_options (Sim.rtm_client (Some "page")) "load" true [])
       "page" []) as H.
  cbv zeta in H. destruct H as [_ [H _]].
  exact (H "n/a" eq_refl eq_refl).
Defined.

(** X18, witness: the last hour of 14 July 2014, published as hour ending
    24:00, begins at 23:00 daylight time, 04:00 UTC on the 15th. *)
Lemma forecast_timestamp_of_row_at_24 :
  @ERCOTClient.forecast_timestamp (spec_utcify Base.US_Central)
    (Sim.dated_libraries (Sim.load_site empty_DataFrame)
       [("07/14/2014 23:00", datetime 2014 7 14 23 0 0)])
    [ ("HourBeginning", VInt 23);
      ("DeliveryDate", VStr "07/14/2014"); ("HourEnding", VStr "24:00");
      ("SystemTotal", Sim.number "51234.5"); ("DSTFlag", VStr "Y") ]
  = Ok (datetime 2014 7 15 4 0 0).
Proof.
  pose proof
    (@forecast_timestamp_of_row (spec_utcify Base.US_Central)
       (Sim.dated_libraries (Sim.load_site empty_DataFrame)
          [("07/14/2014 23:00", datetime 2014 7 14 23 0 0)])
       [ ("DeliveryDate", VStr "07/14/2014"); ("HourEnding", VStr "24:00");
         ("SystemTotal", Sim.number "51234.5"); ("DSTFlag", VStr "Y") ]
       "07/14/2014" 24 (VStr "Y")
       eq_refl eq_refl ltac:(lia) eq_refl) as [_ H].
  change (24 - 1) with 23 in H. rewrite H. vm_compute. reflexivity.
Defined.

(** X19, witness: a forecast whose second row is published as hour ending
    "noon". *)
Lemma get_load_forecast_bad_row_at_site :
  @ERCOTClient.get_load (spec_utcify Base.US_Central)
    (Sim.client (Sim.load_site (Sim.load_table
       [ Sim.load_row "07/14/2014" "1:00" (Sim.number "40000.0") "Y";
         Sim.load_row "07/14/2014" "noon" (Sim.number "50000.0") "Y";
         Sim.load_row "07/14/2014" "14:00" (Sim.number "60000.0") "Y" ])))
    (Sim.libraries (Sim.load_site (Sim.load_table
       [ Sim.load_row "07/14/2014" "1:00" (Sim.number "40000.0") "Y";
         Sim.load_row "07/14/2014" "noon" (Sim.number "50000.0") "Y";
         Sim.load_row "07/14/2014" "14:00" (Sim.number "60000.0") "Y" ])))
    false [("forecast", VInt 1)] []
  = (Raise (ValueError "invalid literal for int() with base 10"),
     [ Request "http://mis.ercot.com/misapp/GetReports.do"
         [("reportTypeId", "12311")];
       Request "http://mis.ercot.com/misdownload/load.csv.zip" [] ]).
Proof.
  pose proof
    (@get_load_forecast_bad_row (spec_utcify Base.US_Central)
       (Sim.client (Sim.load_site (Sim.load_table
          [ Sim.load_row "07/14/2014" "1:00" (Sim.number "40000.0") "Y";
            Sim.load_row "07/14/2014" "noon" (Sim.number "50000.0") "Y";
            Sim.load_row "07/14/2014" "14:00" (Sim.number "60000.0") "Y" ])))
       (Sim.libraries (Sim.load_site (Sim.load_table
          [ Sim.load_row "07/14/2014" "1:00" (Sim.number "40000.0") "Y";
            Sim.load_row "07/14/2014" "noon" (Sim.number "50000.0") "Y";
            Sim.load_row "07/14/2014" "14:00" (Sim.number "60000.0") "Y" ])))
       false [("forecast", VInt 1)] []
       [ Request "http://mis.ercot.com/misapp/GetReports.do"
           [("reportTypeId", "12311")];
         Request "http://mis.ercot.com/misdownload/load.csv.zip" [] ]
       (Sim.load_table
          [ Sim.load_row "07/14/2014" "1:00" (Sim.number "40000.0") "Y";
            Sim.load_row "07/14/2014" "noon" (Sim.number "50000.0") "Y";
            Sim.load_row "07/14/2014" "14:00" (Sim.number "60000.0") "Y" ])
       [ combine ["DeliveryDate"; "HourEnding"; "SystemTotal"; "DSTFlag"]
           (Sim.load_row "07/14/2014" "1:00" (Sim.number "40000.0") "Y") ]
       (combine ["DeliveryDate"; "HourEnding"; "SystemTotal"; "DSTFlag"]
          (Sim.load_row "07/14/2014" "noon" (Sim.number "50000.0") "Y"))
       [ combine ["DeliveryDate"; "HourEnding"; "SystemTotal"; "DSTFlag"]
           (Sim.load_row "07/14/2014" "14:00" (Sim.number "60000.0") "Y") ]
       (ValueError "invalid literal for int() with base 10")) as H.
  do 4 specialize (H ltac:(vm_compute; reflexivity)).
  specialize (H ltac:(repeat constructor; eexists; vm_compute; reflexivity)).
  specialize (H ltac:(vm_compute; reflexivity)).
  exact H.
Defined.
